(** * Ink stroke meshes: raw meshes, packed meshes and the outline builder

    A shallow embedding of

    - [engine/geometry/mesh/mesh.cc]   ([Mesh], [OptimizedMesh],
      [NormalizeTriangleHelper]), and
    - [engine/geometry/line/fat_line.h] ([FatLine::AppendVertex] and the
      other members defined in the header),

    followed by the properties of these operations.

    Conventions of the embedding.

    - [uint16_t] and [uint32_t] values are integers in [Z]; every
      conversion the code performs between widths is written out
      ([to_uint16], [to_uint32]).
    - A [std::vector] is a list; [v[i]] is [vec_at], which reports the
      undefined out-of-range access as the failure [Undefined].  Sizes are
      natural numbers: vectors are assumed short enough (below [2^31]
      elements) for the [int] and [size_t] counters that traverse them.
    - [EXPECT], [ASSERT] and [RUNTIME_ERROR] abort; a function that can
      abort returns a [result].
    - glm, the geometry helpers, the vertex packing and the build
      configuration live in headers outside these files.  They are the
      fields of the classes [Platform], [Geometry] and [Packing]; every
      statement below holds for each implementation of them. *)

From Stdlib Require Import ZArith List Bool Lia.
From stdpp Require Import base list.

Local Open Scope Z_scope.

(** ** Fixed-width integers *)

(** [constexpr uint16_t kMax16 = std::numeric_limits<uint16_t>::max();] *)
Definition kMax16 : Z := 65535.

(** Conversion of an unsigned value to [uint16_t] and to [uint32_t]. *)
Definition to_uint16 (z : Z) : Z := z mod 2 ^ 16.
Definition to_uint32 (z : Z) : Z := z mod 2 ^ 32.

(** ** Failures *)

Inductive error : Set :=
| ExpectFailed   (* EXPECT(cond) with cond false *)
| AssertFailed   (* ASSERT(cond) with cond false, in a build that checks it *)
| RuntimeError   (* RUNTIME_ERROR(...) *)
| OutOfRange     (* std::out_of_range thrown by vector::at *)
| Undefined.     (* access outside a vector through operator[] or begin() *)

Inductive result (A : Type) : Type :=
| Ok (a : A)
| Fatal (e : error).
Arguments Ok {A} a.
Arguments Fatal {A} e.

Definition result_bind {A B} (f : A -> result B) (r : result A) : result B :=
  match r with
  | Ok a => f a
  | Fatal e => Fatal e
  end.

Definition result_map {A B} (f : A -> B) (r : result A) : result B :=
  match r with
  | Ok a => Ok (f a)
  | Fatal e => Fatal e
  end.

#[global] Instance result_fmap : FMap result := @result_map.
#[global] Instance result_mbind : MBind result := @result_bind.
#[global] Instance result_mret : MRet result := @Ok.

(** [EXPECT(cond)] is checked in every build. *)
Definition EXPECT (cond : bool) : result unit :=
  if cond then Ok tt else Fatal ExpectFailed.

(** [RUNTIME_ERROR(msg)] never returns. *)
Definition RUNTIME_ERROR {A} : result A := Fatal RuntimeError.

(** [v[i]] on a [std::vector]. *)
Definition vec_at {A} (v : list A) (i : nat) : result A :=
  match v !! i with
  | Some a => Ok a
  | None => Fatal Undefined
  end.

(** [v.at(i)] on a [std::vector]. *)
Definition vec_checked_at {A} (v : list A) (i : nat) : result A :=
  match v !! i with
  | Some a => Ok a
  | None => Fatal OutOfRange
  end.

(** [for (i = start; i < start + count; ++i) s = body(s, i);] *)
Fixpoint for_range {S} (body : S -> nat -> result S) (start count : nat) (s : S)
  : result S :=
  match count with
  | O => Ok s
  | Datatypes.S count' =>
      s' ← body s start; for_range body (Datatypes.S start) count' s'
  end.

(** [v.empty()] *)
Definition empty {A} (v : list A) : bool :=
  match v with [] => true | _ :: _ => false end.

(** ** What the included headers provide *)

(** Scalars and build configuration.  [F] is [float]; [flt] is [<] on it.
    [assert_enabled] tells whether [ASSERT] is compiled in: [Mesh::Index16]
    tests again, after its [ASSERT], the condition it has just asserted, so
    the code itself allows for builds in which [ASSERT] does nothing. *)
Class Platform : Type := {
  F : Type;
  fzero : F;
  fone : F;
  fadd : F -> F -> F;
  fmul : F -> F -> F;
  flt : F -> F -> bool;
  InputTimeS : Type;
  FrameTimeS : Type;
  FrameTimeS_zero : FrameTimeS;
  assert_enabled : bool
}.

Section Glm.
Context `{P : Platform}.

(** [ASSERT(cond)] *)
Definition ASSERT (cond : bool) : result unit :=
  if assert_enabled && negb cond then Fatal AssertFailed else Ok tt.

(** [glm::vec2] and [glm::vec4]; a colour is a [vec4] (r, g, b, a). *)
Record vec2 : Type := Vec2 { v2x : F; v2y : F }.
Record vec4 : Type := Vec4 { v4x : F; v4y : F; v4z : F; v4w : F }.

(** Component-wise [*] and [+] of glm. *)
Definition vec4_mul (u v : vec4) : vec4 :=
  Vec4 (fmul (v4x u) (v4x v)) (fmul (v4y u) (v4y v))
       (fmul (v4z u) (v4z v)) (fmul (v4w u) (v4w v)).
Definition vec4_add (u v : vec4) : vec4 :=
  Vec4 (fadd (v4x u) (v4x v)) (fadd (v4y u) (v4y v))
       (fadd (v4z u) (v4z v)) (fadd (v4w u) (v4w v)).
End Glm.

(** Matrices, rectangles, triangles and textures. *)
Class Geometry `{P : Platform} : Type := {
  mat4 : Type;
  mat4_identity : mat4;                      (* glm::mat4{1} *)
  mat4_mul : mat4 -> mat4 -> mat4;           (* a * b *)
  mat4_inverse : mat4 -> mat4;               (* glm::inverse *)
  mat4_apply : mat4 -> vec4 -> vec4;         (* m * v *)
  Transform : vec2 -> mat4 -> vec2;          (* geometry::Transform(vec2, mat4) *)
  Rect : Type;
  Rect_default : Rect;
  Envelope : list vec2 -> Rect;              (* geometry::Envelope, of the positions *)
  Rect_Contains : Rect -> Rect -> bool;
  Rect_Transform : Rect -> mat4 -> Rect;     (* geometry::Transform(Rect, mat4) *)
  Rect_CreateAtPoint : vec2 -> Rect;
  AssignOrJoinTo : Rect -> option Rect -> option Rect;
  SignedArea : vec2 -> vec2 -> vec2 -> F;    (* geometry::Triangle(a, b, c).SignedArea() *)
  TextureInfo : Type
}.

Module Vertex.
Section Defs.
Context `{G : Geometry}.

(** Modelled from the spec: [vertex.h] is not among the sources; a vertex
    has a 2-D position, an RGBA colour and an optional texture
    coordinate. *)
Record t : Type := Make {
  position : vec2;
  color : vec4;
  texture_coords : option vec2
}.

(** [Vertex()] *)
Definition Default : t :=
  Make (Vec2 fzero fzero) (Vec4 fzero fzero fzero fzero) None.

(** [Vertex(p)] *)
Definition At (p : vec2) : t :=
  Make p (color Default) (texture_coords Default).

(** [v.position = p] and [v.color = c] *)
Definition set_position (v : t) (p : vec2) : t :=
  Make p (color v) (texture_coords v).
Definition set_color (v : t) (c : vec4) : t :=
  Make (position v) c (texture_coords v).
End Defs.
End Vertex.

Section TriangleDef.
Context `{G : Geometry}.

(** [t.SignedArea() < 0] for [geometry::Triangle t(a, b, c)]. *)
Definition negative_area (a b c : vec2) : bool :=
  flt (SignedArea a b c) fzero.
End TriangleDef.

(** ** NormalizeTriangleHelper *)

Section Normalize.
Context `{G : Geometry}.

(** [std::swap(v[i], v[j])] *)
Definition swap_elems {A} (v : list A) (i j : nat) : result (list A) :=
  a ← vec_at v i;
  b ← vec_at v j;
  Ok (<[j:=a]> (<[i:=b]> v)).

(** One iteration of the loop, on triangle [i]. *)
Definition normalize_triangle (position_getter : Z -> result vec2)
    (indices : list Z) (i : nat) : result (list Z) :=
  i0 ← vec_at indices (3 * i)%nat;
  p0 ← position_getter i0;
  i1 ← vec_at indices (3 * i + 1)%nat;
  p1 ← position_getter i1;
  i2 ← vec_at indices (3 * i + 2)%nat;
  p2 ← position_getter i2;
  if negative_area p0 p1 p2
  then swap_elems indices (3 * i + 1)%nat (3 * i + 2)%nat
  else Ok indices.

Definition NormalizeTriangleHelper (position_getter : Z -> result vec2)
    (indices : list Z) : result (list Z) :=
  ASSERT (length indices mod 3 =? 0)%nat;;
  let n_triangles := (length indices / 3)%nat in
  for_range (normalize_triangle position_getter) 0 n_triangles indices.
End Normalize.

(** ** ShaderMetadata *)

Module ShaderMetadata.
Section Defs.
Context `{P : Platform}.

Record t : Type := Make {
  is_particle_ : bool;
  is_animated_ : bool;
  is_cycling_ : bool;
  init_time_ : FrameTimeS;
  is_eraser_ : bool
}.

(** [ShaderMetadata::ShaderMetadata()] *)
Definition Default : t := Make false false false FrameTimeS_zero false.

Definition Animated (init_time : FrameTimeS) : t :=
  Make (is_particle_ Default) true (is_cycling_ Default) init_time
       (is_eraser_ Default).

Definition Eraser : t :=
  Make (is_particle_ Default) (is_animated_ Default) (is_cycling_ Default)
       (init_time_ Default) true.

Definition Particle (init_time : FrameTimeS) (cycling : bool) : t :=
  Make true (is_animated_ Default) cycling init_time (is_eraser_ Default).
End Defs.
End ShaderMetadata.

(** ** Mesh (the raw mesh) *)

Module Mesh.
Section Defs.
Context `{G : Geometry}.

(** [idx] is a [std::vector<uint32_t>].  The members [combined_idx] and
    [backend_vert_data] are read or written by none of the operations
    below and are left out. *)
Record t : Type := Make {
  verts : list Vertex.t;
  idx : list Z;
  texture : option TextureInfo;
  object_matrix : mat4;
  shader_metadata : ShaderMetadata.t
}.

(** [Mesh::Mesh()] *)
Definition Default : t :=
  Make [] [] None mat4_identity ShaderMetadata.Default.

Definition set_verts (m : t) (vs : list Vertex.t) : t :=
  Make vs (idx m) (texture m) (object_matrix m) (shader_metadata m).
Definition set_idx (m : t) (ix : list Z) : t :=
  Make (verts m) ix (texture m) (object_matrix m) (shader_metadata m).

(** The precondition asserted by [Append]. *)
Definition append_arity (self other : t) : bool :=
  empty (verts other) || empty (verts self)
  || eqb (empty (idx other)) (empty (idx self)).

(** [void Mesh::Append(const Mesh& other)]; [other] is another object than
    the receiver.  [i + startidx] is computed in [size_t] and stored as
    [uint32_t]. *)
Definition Append (self other : t) : result t :=
  ASSERT (append_arity self other);;
  let startidx := Z.of_nat (length (verts self)) in
  let t := mat4_mul (mat4_inverse (object_matrix self)) (object_matrix other) in
  let verts' :=
    fold_left (fun vs ov =>
         vs ++ [Vertex.set_position ov (Transform (Vertex.position ov) t)])
              (verts other) (verts self) in
  let idx' :=
    fold_left (fun acc i => acc ++ [to_uint32 (i + startidx)])
              (idx other) (idx self) in
  Ok (set_idx (set_verts self verts') idx').

(** [void Mesh::Deindex()] *)
Definition Deindex (self : t) : result t :=
  if empty (idx self) then Ok self
  else
    new_verts ←
      for_range
        (fun (new_verts : list Vertex.t) i =>
           k ← vec_at (idx self) i;
           v ← vec_at (verts self) (Z.to_nat k);
           Ok (<[i:=v]> new_verts))
        0 (length (idx self))
        (replicate (length (idx self)) Vertex.Default);
    Ok (set_verts (set_idx self []) new_verts).

(** [idx.resize(n)]: truncate, or pad with zeros. *)
Definition resize (n : nat) (v : list Z) : list Z :=
  take n v ++ replicate (n - length v) 0.

(** [std::iota(first, last, 0)] *)
Definition iota (v : list Z) : list Z :=
  imap (fun k _ => Z.of_nat k) v.

(** [void Mesh::GenIndex()] *)
Definition GenIndex (self : t) : t :=
  set_idx self (iota (resize (length (verts self)) (idx self))).

(** The lambda [[this](IndexType index) { return verts[index].position; }] *)
Definition position_getter (self : t) (index : Z) : result vec2 :=
  v ← vec_at (verts self) (Z.to_nat index); Ok (Vertex.position v).

(** [void Mesh::NormalizeTriangleOrientation()] *)
Definition NormalizeTriangleOrientation (self : t) : result t :=
  idx' ← NormalizeTriangleHelper (position_getter self) (idx self);
  Ok (set_idx self idx').

(** [glm::vec2 Mesh::ObjectPosToWorld(const glm::vec2&) const] *)
Definition ObjectPosToWorld (self : t) (object_pos : vec2) : vec2 :=
  let w := mat4_apply (object_matrix self)
                      (Vec4 (v2x object_pos) (v2y object_pos) fone fone) in
  Vec2 (v4x w) (v4y w).

(** [bool Mesh::Has16BitIndex() const] *)
Definition Has16BitIndex (self : t) : bool :=
  Z.of_nat (length (verts self)) <? kMax16.

(** [std::vector<uint16_t> Mesh::Index16() const]; the [SLOG] only logs. *)
Definition Index16 (self : t) : result (list Z) :=
  ASSERT (Has16BitIndex self);;
  Ok (map to_uint16 (idx self)).

(** [size_t Mesh::IndexSize() const] *)
Definition IndexSize (self : t) : nat := length (idx self).

(** [uint32_t Mesh::IndexAt(size_t n) const] *)
Definition IndexAt (self : t) (n : nat) : result Z := vec_at (idx self) n.
(** [Mesh::Mesh(const std::vector<Vertex>& verts)] *)
Definition FromVerts (vs : list Vertex.t) : t :=
  Make vs [] None mat4_identity ShaderMetadata.Default.

(** [Mesh& Mesh::operator=(const Mesh& other)] and the copy constructor
    built on it, on the members modelled: the texture is copied by value. *)
Definition Assign (self other : t) : t :=
  Make (verts other) (idx other)
       (match texture other with Some info => Some info | None => None end)
       (object_matrix other) (shader_metadata other).

(** [void Mesh::Clear()], on the members modelled. *)
Definition Clear (self : t) : t := set_idx (set_verts self []) [].
End Defs.
End Mesh.

(** ** Shader types and packed vertex formats *)

(** The enumerators named by [OptimizedMesh::VertexFormat]; [OtherShader]
    stands for every value of the enumeration that the switch leaves to its
    [default] label. *)
Inductive ShaderType : Set :=
| ColoredVertShader
| SingleColorShader
| EraseShader
| TexturedVertShader
| OtherShader.

Definition ShaderType_eqb (a b : ShaderType) : bool :=
  match a, b with
  | ColoredVertShader, ColoredVertShader
  | SingleColorShader, SingleColorShader
  | EraseShader, EraseShader
  | TexturedVertShader, TexturedVertShader
  | OtherShader, OtherShader => true
  | _, _ => false
  end.

Inductive VertFormat : Set :=
| x12y12
| x11a7r6y11g7b6
| x11a7r6y11g7b6u12v12.

(** [PackedVertList], from [packed_vert_list.h]. *)
Class Packing `{G : Geometry} : Type := {
  PackedVertList : Type;
  PackedVertList_size : PackedVertList -> nat;                (* size() *)
  UnpackVertex : PackedVertList -> Z -> Vertex.t -> Vertex.t;     (* UnpackVertex(i, &v) *)
  PackedVertList_Clear : PackedVertList -> PackedVertList;    (* Clear() *)
  CalcTransformForFormat : Rect -> VertFormat -> mat4;
  PackVerts : list Vertex.t -> mat4 -> VertFormat -> PackedVertList
}.

(** ** OptimizedMesh (the packed mesh) *)

Module OptimizedMesh.
Section Defs.
Context `{K : Packing}.

(** [absl::variant<std::vector<uint16_t>, std::vector<uint32_t>>] *)
Inductive IndexVariant : Type :=
| Idx16 (v : list Z)
| Idx32 (v : list Z).

Record t : Type := Make {
  type : ShaderType;
  verts : PackedVertList;
  texture : option TextureInfo;
  mbr : Rect;
  object_matrix : mat4;
  color : vec4;
  mul_color_modifier : vec4;
  add_color_modifier : vec4;
  idx_ : IndexVariant
}.

(** [absl::holds_alternative<std::vector<uint32_t>>(idx_)] *)
Definition holds_uint32 (v : IndexVariant) : bool :=
  match v with Idx32 _ => true | Idx16 _ => false end.

(** The stored indices, whatever their width. *)
Definition indices (v : IndexVariant) : list Z :=
  match v with Idx16 l => l | Idx32 l => l end.

(** [VertFormat OptimizedMesh::VertexFormat(ShaderType shader_type)] *)
Definition VertexFormat (shader_type : ShaderType) : result VertFormat :=
  let fmt := x12y12 in
  match shader_type with
  | ColoredVertShader => Ok x11a7r6y11g7b6
  | SingleColorShader | EraseShader => Ok x12y12
  | TexturedVertShader => Ok x11a7r6y11g7b6u12v12
  | OtherShader => ASSERT false;; Ok fmt
  end.

(** [OptimizedMesh::OptimizedMesh(const OptimizedMesh& other)]; its
    initialiser list does not name [mbr]. *)
Definition Copy (other : t) : t :=
  Make (type other) (verts other) (texture other) Rect_default
       (object_matrix other) (color other) (mul_color_modifier other)
       (add_color_modifier other) (idx_ other).

(** [size_t OptimizedMesh::IndexSize() const] *)
Definition IndexSize (self : t) : nat :=
  match idx_ self with
  | Idx32 v => length v
  | Idx16 v => length v
  end.

(** [uint32_t OptimizedMesh::IndexAt(size_t n) const] *)
Definition IndexAt (self : t) (n : nat) : result Z :=
  match idx_ self with
  | Idx32 v => vec_checked_at v n
  | Idx16 v => vec_checked_at v n
  end.

(** [void OptimizedMesh::Validate() const] *)
Definition Validate (self : t) : result unit :=
  if (IndexSize self =? 0)%nat then Ok tt
  else ASSERT (IndexSize self mod 3 =? 0)%nat.

(** The lambdas handed to [NormalizeTriangleHelper] by the constructor:
    [Vertex v; verts.UnpackVertex(index, &v); return v.position;] *)
Definition unpacked_position (packed : PackedVertList) (index : Z)
  : result vec2 :=
  Ok (Vertex.position (UnpackVertex packed index Vertex.Default)).

(** The constructor [OptimizedMesh(ShaderType, const Mesh&, Rect)] up to,
    and without, its final call of [Validate]: first the member
    initialisers, then the body. *)
Definition Populate (type : ShaderType) (mesh : Mesh.t) (envelope : Rect)
  : result t :=
  let texture := Mesh.texture mesh in
  first ← vec_at (Mesh.verts mesh) 0;          (* mesh.verts.begin()->color *)
  let color := Vertex.color first in
  let mul_color_modifier := Vec4 fone fone fone fone in
  let add_color_modifier := Vec4 fzero fzero fzero fzero in
  EXPECT (negb (empty (Mesh.idx mesh))
          && (length (Mesh.idx mesh) mod 3 =? 0)%nat);;
  EXPECT (negb (empty (Mesh.verts mesh)));;
  ASSERT (Rect_Contains envelope
            (Envelope (map Vertex.position (Mesh.verts mesh))));;
  fmt ← VertexFormat type;
  let m := CalcTransformForFormat envelope fmt in
  let verts := PackVerts (Mesh.verts mesh) m fmt in
  let mbr := Rect_Transform (Envelope (map Vertex.position (Mesh.verts mesh))) m in
  idx_ ←
    (if Z.of_nat (length (Mesh.verts mesh)) <? kMax16
     then
       v ← NormalizeTriangleHelper (unpacked_position verts)
                                   (map to_uint16 (Mesh.idx mesh));
       Ok (Idx16 v)
     else
       v ← NormalizeTriangleHelper (unpacked_position verts) (Mesh.idx mesh);
       Ok (Idx32 v));
  let object_matrix := mat4_mul (Mesh.object_matrix mesh) (mat4_inverse m) in
  Ok (Make type verts texture mbr object_matrix color
           mul_color_modifier add_color_modifier idx_).

(** [OptimizedMesh::OptimizedMesh(ShaderType, const Mesh&, Rect)] *)
Definition New (type : ShaderType) (mesh : Mesh.t) (envelope : Rect)
  : result t :=
  self ← Populate type mesh envelope;
  Validate self;;
  Ok self.

(** [OptimizedMesh::OptimizedMesh(ShaderType, const Mesh&)] *)
Definition NewFromMesh (type : ShaderType) (mesh : Mesh.t) : result t :=
  New type mesh (Envelope (map Vertex.position (Mesh.verts mesh))).

(** [void OptimizedMesh::ClearCpuMemoryVerts()] *)
Definition ClearCpuMemoryVerts (self : t) : t :=
  Make (type self) (PackedVertList_Clear (verts self)) (texture self)
       (mbr self) (object_matrix self) (color self)
       (mul_color_modifier self) (add_color_modifier self) (Idx16 []).

(** The body of the loop of [ToMesh] for vertex [i], on [m.verts[i]]. *)
Definition unpack_one (self : t) (i : nat) (v : Vertex.t) : Vertex.t :=
  let v := UnpackVertex (verts self) (Z.of_nat i) v in
  let v := if ShaderType_eqb (type self) SingleColorShader
           then Vertex.set_color v (color self) else v in
  Vertex.set_color v
    (vec4_add (vec4_mul (Vertex.color v) (mul_color_modifier self))
              (add_color_modifier self)).

(** [Mesh OptimizedMesh::ToMesh() const] *)
Definition ToMesh (self : t) : Mesh.t :=
  let m := Mesh.Default in
  let n := PackedVertList_size (verts self) in
  let resized := replicate n Vertex.Default in
  let m_verts :=
    fold_left
      (fun vs i =>
         match vs !! i with
         | Some v => <[i:=unpack_one self i v]> vs
         | None => vs
         end)
      (seq 0 n) resized in
  let m_idx :=
    match idx_ self with
    | Idx32 v => v
    | Idx16 v => v
    end in
  let m_texture :=
    match texture self with
    | Some info => Some info
    | None => Mesh.texture m
    end in
  Mesh.Make m_verts m_idx m_texture (object_matrix self)
            (Mesh.shader_metadata m).

(** [Rect OptimizedMesh::WorldBounds() const] *)
Definition WorldBounds (self : t) : Rect :=
  Rect_Transform (mbr self) (object_matrix self).

(** [std::vector<uint16_t> OptimizedMesh::Index16() const] *)
Definition Index16 (self : t) : result (list Z) :=
  match idx_ self with
  | Idx16 v => Ok v
  | Idx32 _ => RUNTIME_ERROR
  end.
End Defs.
End OptimizedMesh.

(** ** FatLine (the incremental outline builder) *)

Module FatLine.
Section Defs.
Context `{G : Geometry}.

(** [Host] is the state outside the builder that a vertex callback can
    read and write; [MidPoint] and [TipModel] come from [mid_point.h] and
    [tip_model_factory.h]. *)
Context {Host MidPoint TipModel : Type}.

(** Modelled from the spec: [tip_size_screen.h] is not among the sources;
    a tip size is two screen-space radii, the first of which is
    [radius]. *)
Record TipSizeScreen : Type := MkTipSize { radius : F; radius_minor : F }.

(** Modelled from the spec: the stylus pressure and tilt state. *)
Record StylusState : Type := MkStylus { pressure : F; tilt : F }.

(** [std::function<void(glm::vec2 centerPt, float radius, InputTimeS time,
    float pressure, Vertex* vert)>]: the callee receives the vertex by
    pointer and may rewrite it, and may change its own state. *)
Definition VertAddFn : Type :=
  vec2 -> F -> InputTimeS -> F -> Vertex.t -> Host -> Vertex.t * Host.

Record t : Type := Make {
  on_add_vert_ : option VertAddFn;          (* an empty std::function is None *)
  min_screen_travel_threshold_ : F;
  tip_size_ : TipSizeScreen;
  last_extrude_time_ : InputTimeS;
  stylus_state_ : StylusState;
  tip_model_ : option TipModel;
  fwd_ : list Vertex.t;
  back_ : list Vertex.t;
  start_cap_ : list Vertex.t;
  end_cap_ : list Vertex.t;
  pts_ : list MidPoint;
  turn_verts_ : Z;
  last_center_ : vec2;
  join_to_line_end_ : bool;
  join_midpoint_ : MidPoint
}.

(** The vertex sequences of the builder that [to] can point to. *)
Inductive Line : Set := Fwd | Back | StartCap | EndCap.

Definition line (self : t) (to : Line) : list Vertex.t :=
  match to with
  | Fwd => fwd_ self
  | Back => back_ self
  | StartCap => start_cap_ self
  | EndCap => end_cap_ self
  end.

Definition set_line (self : t) (to : Line) (vs : list Vertex.t) : t :=
  Make (on_add_vert_ self) (min_screen_travel_threshold_ self)
       (tip_size_ self) (last_extrude_time_ self) (stylus_state_ self)
       (tip_model_ self)
       (match to with Fwd => vs | _ => fwd_ self end)
       (match to with Back => vs | _ => back_ self end)
       (match to with StartCap => vs | _ => start_cap_ self end)
       (match to with EndCap => vs | _ => end_cap_ self end)
       (pts_ self) (turn_verts_ self) (last_center_ self)
       (join_to_line_end_ self) (join_midpoint_ self).

(** [VertAddFn VertCallback() const] and
    [void SetVertCallback(VertAddFn function)] *)
Definition VertCallback (self : t) : option VertAddFn := on_add_vert_ self.
Definition SetVertCallback (self : t) (function : option VertAddFn) : t :=
  Make function (min_screen_travel_threshold_ self)
       (tip_size_ self) (last_extrude_time_ self) (stylus_state_ self)
       (tip_model_ self) (fwd_ self) (back_ self) (start_cap_ self)
       (end_cap_ self) (pts_ self) (turn_verts_ self) (last_center_ self)
       (join_to_line_end_ self) (join_midpoint_ self).

(** [const std::vector<Vertex>& ForwardLine() const] and its siblings. *)
Definition ForwardLine (self : t) : list Vertex.t := fwd_ self.
Definition BackwardLine (self : t) : list Vertex.t := back_ self.
Definition StartCapLine (self : t) : list Vertex.t := start_cap_ self.
Definition EndCapLine (self : t) : list Vertex.t := end_cap_ self.

(** [inline void AppendVertex(std::vector<Vertex>* to, glm::vec2 p,
    OptRect* bounding_rect)].  The three results are the builder, the
    rectangle behind [bounding_rect] and the state of the callback's
    host. *)
Definition AppendVertex (self : t) (to : Line) (p : vec2)
    (bounding_rect : option Rect) (host : Host)
  : t * option Rect * Host :=
  let v := Vertex.At p in
  let '(v, host) :=
    match on_add_vert_ self with
    | Some on_add_vert =>
        on_add_vert (last_center_ self) (radius (tip_size_ self))
                    (last_extrude_time_ self)
                    (pressure (stylus_state_ self)) v host
    | None => (v, host)
    end in
  let self := set_line self to (line self to ++ [v]) in
  (self,
   AssignOrJoinTo (Rect_CreateAtPoint (Vertex.position v)) bounding_rect,
   host).
(** [void SetTurnVerts(uint32_t turn_verts)] *)
Definition SetTurnVerts (self : t) (turn_verts : Z) : t :=
  Make (on_add_vert_ self) (min_screen_travel_threshold_ self)
       (tip_size_ self) (last_extrude_time_ self) (stylus_state_ self)
       (tip_model_ self) (fwd_ self) (back_ self) (start_cap_ self)
       (end_cap_ self) (pts_ self) turn_verts (last_center_ self)
       (join_to_line_end_ self) (join_midpoint_ self).

(** [float MinScreenTravelThreshold() const] and
    [void SetMinScreenTravelThreshold(float distance)] *)
Definition MinScreenTravelThreshold (self : t) : F :=
  min_screen_travel_threshold_ self.
Definition SetMinScreenTravelThreshold (self : t) (distance : F) : t :=
  Make (on_add_vert_ self) distance
       (tip_size_ self) (last_extrude_time_ self) (stylus_state_ self)
       (tip_model_ self) (fwd_ self) (back_ self) (start_cap_ self)
       (end_cap_ self) (pts_ self) (turn_verts_ self) (last_center_ self)
       (join_to_line_end_ self) (join_midpoint_ self).

(** [TipSizeScreen TipSize() const] and [void SetTipSize(TipSizeScreen)] *)
Definition TipSize (self : t) : TipSizeScreen := tip_size_ self.
Definition SetTipSize (self : t) (tip_size : TipSizeScreen) : t :=
  Make (on_add_vert_ self) (min_screen_travel_threshold_ self)
       tip_size (last_extrude_time_ self) (stylus_state_ self)
       (tip_model_ self) (fwd_ self) (back_ self) (start_cap_ self)
       (end_cap_ self) (pts_ self) (turn_verts_ self) (last_center_ self)
       (join_to_line_end_ self) (join_midpoint_ self).

(** [void SetStylusState(input::StylusState stylus_state)] *)
Definition SetStylusState (self : t) (stylus_state : StylusState) : t :=
  Make (on_add_vert_ self) (min_screen_travel_threshold_ self)
       (tip_size_ self) (last_extrude_time_ self) stylus_state
       (tip_model_ self) (fwd_ self) (back_ self) (start_cap_ self)
       (end_cap_ self) (pts_ self) (turn_verts_ self) (last_center_ self)
       (join_to_line_end_ self) (join_midpoint_ self).

(** [const std::vector<MidPoint>& MidPoints() const] *)
Definition MidPoints (self : t) : list MidPoint := pts_ self.

(** [tip_model_ = ...] *)
Definition set_tip_model (self : t) (model : option TipModel) : t :=
  Make (on_add_vert_ self) (min_screen_travel_threshold_ self)
       (tip_size_ self) (last_extrude_time_ self) (stylus_state_ self)
       model (fwd_ self) (back_ self) (start_cap_ self)
       (end_cap_ self) (pts_ self) (turn_verts_ self) (last_center_ self)
       (join_to_line_end_ self) (join_midpoint_ self).

(** [TipType], [TipModel::GetTipType] and [CreateTipModel] come from
    [tip_type.h] and [tip_model_factory.h]; tip types are compared with
    [!=]. *)
Context {TipType : Type} `{EqDecision TipType}.
Variable TipModel_GetTipType : TipModel -> TipType.
Variable CreateTipModel : TipType -> TipModel.

(** [TipType GetTipType() const]: the [EXPECT], then the call through the
    pointer. *)
Definition GetTipType (self : t) : result TipType :=
  EXPECT (bool_decide (tip_model_ self <> None));;
  model ← (match tip_model_ self with
           | Some model => Ok model
           | None => Fatal Undefined
           end);
  Ok (TipModel_GetTipType model).

(** [void SetTipType(TipType tip_type)] *)
Definition SetTipType (self : t) (tip_type : TipType) : t :=
  if match tip_model_ self with
     | None => true
     | Some model => bool_decide (TipModel_GetTipType model <> tip_type)
     end
  then set_tip_model self (Some (CreateTipModel tip_type))
  else self.

(** A run of calls of [AppendVertex] on one sequence and one bounding
    rectangle, as the code that builds a segment or a cap makes them. *)
Fixpoint AppendVertices (self : t) (to : Line) (ps : list vec2)
    (bounding_rect : option Rect) (host : Host) : t * option Rect * Host :=
  match ps with
  | [] => (self, bounding_rect, host)
  | p :: ps' =>
      let '(self', bounding_rect', host') :=
        AppendVertex self to p bounding_rect host in
      AppendVertices self' to ps' bounding_rect' host'
  end.
End Defs.
End FatLine.

(** ** Vocabulary of the statements *)

Section Vocabulary.
Context `{G : Geometry}.

(** The triangles of an index sequence: its consecutive triples. *)
Fixpoint triangles {A} (l : list A) : list (A * A * A) :=
  match l with
  | a :: b :: c :: rest => (a, b, c) :: triangles rest
  | _ => []
  end.

(** A triangle with its second and third corner exchanged. *)
Definition swap23 {A} (t : A * A * A) : A * A * A :=
  let '(a, b, c) := t in (a, c, b).

(** Orientation of an index triple whose corners are found by the total
    function [pos]. *)
Definition negative_triangle (pos : Z -> vec2) (t : Z * Z * Z) : bool :=
  let '(a, b, c) := t in negative_area (pos a) (pos b) (pos c).

(** What normalisation does to one triangle. *)
Definition oriented (pos : Z -> vec2) (t : Z * Z * Z) : Z * Z * Z :=
  if negative_triangle pos t then swap23 t else t.

(** What normalisation does to a whole index sequence when every corner
    is found by [pos]. *)
Fixpoint orient_all (pos : Z -> vec2) (l : list Z) : list Z :=
  match l with
  | a :: b :: c :: rest =>
      if negative_area (pos a) (pos b) (pos c)
      then a :: c :: b :: orient_all pos rest
      else a :: b :: c :: orient_all pos rest
  | _ => l
  end.

(** The recursive reading of [NormalizeTriangleHelper]: triple by triple,
    a rest of fewer than three indices is left as it is. *)
Fixpoint normalize_triples (position_getter : Z -> result vec2)
    (l : list Z) : result (list Z) :=
  match l with
  | a :: b :: c :: rest =>
      pa ← position_getter a;
      pb ← position_getter b;
      pc ← position_getter c;
      rest' ← normalize_triples position_getter rest;
      Ok (if negative_area pa pb pc
          then a :: c :: b :: rest'
          else a :: b :: c :: rest')
  | _ => Ok l
  end.

(** Exchanging the last two corners of a triangle of negative signed area
    gives one whose signed area is not negative.  [triangle.h] is not
    among the sources; this is what the statements about orientation ask
    of its [SignedArea]. *)
Definition SignedArea_antisymmetric : Prop :=
  forall a b c : vec2,
    negative_area a b c = true -> negative_area a c b = false.

(** Every index is below [n]. *)
Definition all_below (n : nat) (l : list Z) : bool :=
  forallb (fun k => (0 <=? k) && (k <? Z.of_nat n)) l.

(** The position of vertex [k], for [k] in range. *)
Definition position_at (vs : list Vertex.t) (k : Z) : vec2 :=
  Vertex.position (nth (Z.to_nat k) vs Vertex.Default).

(** The invariant of a raw mesh on its indices: each is the index of a
    vertex. *)
Definition indices_in_range (m : Mesh.t) : bool :=
  all_below (length (Mesh.verts m)) (Mesh.idx m).

(** The positions a mesh draws, index by index: for each index the
    position of the vertex it names.  A mesh without indices has none. *)
Definition index_positions (m : Mesh.t) : list vec2 :=
  map (position_at (Mesh.verts m)) (Mesh.idx m).

(** Adding [n] to an index never leaves [uint32_t]. *)
Definition offsets_fit (n : nat) (l : list Z) : bool :=
  forallb (fun k => (0 <=? k) && (k + Z.of_nat n <? 2 ^ 32)) l.
End Vocabulary.

Section PackedVocabulary.
Context `{K : Packing}.

(** The position the packed list gives back for vertex [k]. *)
Definition packed_position (packed : PackedVertList) (k : Z) : vec2 :=
  Vertex.position (UnpackVertex packed k Vertex.Default).

(** The contract of the constructor, as its two [EXPECT]s write it. *)
Definition construction_precondition (mesh : Mesh.t) : bool :=
  negb (empty (Mesh.verts mesh))
  && negb (empty (Mesh.idx mesh))
  && (length (Mesh.idx mesh) mod 3 =? 0)%nat.

(** What a build with [ASSERT]s asks in addition: a shader type that
    [VertexFormat] knows, and an envelope that contains the mesh. *)
Definition asserts_hold (type : ShaderType) (mesh : Mesh.t) (envelope : Rect)
  : bool :=
  negb assert_enabled
  || (negb (ShaderType_eqb type OtherShader)
      && Rect_Contains envelope
           (Envelope (map Vertex.position (Mesh.verts mesh)))).

(** The packed vertex format of a shader type. *)
Definition format_of (type : ShaderType) : VertFormat :=
  match type with
  | ColoredVertShader => x11a7r6y11g7b6
  | TexturedVertShader => x11a7r6y11g7b6u12v12
  | SingleColorShader | EraseShader | OtherShader => x12y12
  end.

(** The packed mesh that a successful construction returns. *)
Definition constructed (type : ShaderType) (mesh : Mesh.t) (envelope : Rect)
  : OptimizedMesh.t :=
  let m := CalcTransformForFormat envelope (format_of type) in
  let packed := PackVerts (Mesh.verts mesh) m (format_of type) in
  OptimizedMesh.Make type packed (Mesh.texture mesh)
    (Rect_Transform (Envelope (map Vertex.position (Mesh.verts mesh))) m)
    (mat4_mul (Mesh.object_matrix mesh) (mat4_inverse m))
    (Vertex.color (nth 0 (Mesh.verts mesh) Vertex.Default))
    (Vec4 fone fone fone fone) (Vec4 fzero fzero fzero fzero)
    (if Z.of_nat (length (Mesh.verts mesh)) <? kMax16
     then OptimizedMesh.Idx16
            (orient_all (packed_position packed)
                        (map to_uint16 (Mesh.idx mesh)))
     else OptimizedMesh.Idx32
            (orient_all (packed_position packed) (Mesh.idx mesh))).

(** [Clear()] leaves a packed list without vertices. *)
Definition Clear_empties : Prop :=
  forall packed : PackedVertList,
    PackedVertList_size (PackedVertList_Clear packed) = 0%nat.
End PackedVocabulary.

Section CallbackVocabulary.
Context `{G : Geometry}.
Context {Host : Type}.

(** The arguments of one call of a vertex callback. *)
Record Call : Type := MkCall {
  call_center : vec2;
  call_radius : F;
  call_time : InputTimeS;
  call_pressure : F;
  call_vertex : Vertex.t
}.

(** A callback that behaves as [f] and writes each of its calls into a
    log kept in its host state. *)
Definition recorded (f : FatLine.VertAddFn (Host := Host))
  : FatLine.VertAddFn (Host := Host * list Call) :=
  fun center radius time pressure v host =>
    let '(v', h') := f center radius time pressure v (fst host) in
    (v', (h', snd host ++ [MkCall center radius time pressure v])).
End CallbackVocabulary.

(** ** Vocabulary of the further statements *)

Section MoreVocabulary.
Context `{G : Geometry}.

(** Every element is a [uint32_t] value. *)
Definition are_uint32 (l : list Z) : bool :=
  forallb (fun k => (0 <=? k) && (k <? 2 ^ 32)) l.

(** The transform [Append] applies to the positions of [other]. *)
Definition moved_into (self other : Mesh.t) (v : Vertex.t) : Vertex.t :=
  Vertex.set_position v
    (Transform (Vertex.position v)
       (mat4_mul (mat4_inverse (Mesh.object_matrix self))
                 (Mesh.object_matrix other))).
End MoreVocabulary.

(** The values that the constructor and the three factories of
    [ShaderMetadata] return. *)
Inductive ShaderMetadata_made `{P : Platform} : ShaderMetadata.t -> Prop :=
| made_Default : ShaderMetadata_made ShaderMetadata.Default
| made_Animated init_time :
    ShaderMetadata_made (ShaderMetadata.Animated init_time)
| made_Eraser : ShaderMetadata_made ShaderMetadata.Eraser
| made_Particle init_time cycling :
    ShaderMetadata_made (ShaderMetadata.Particle init_time cycling).

Section MorePackedVocabulary.
Context `{K : Packing}.

(** [PackVerts] packs every vertex it is given. *)
Definition PackVerts_keeps_count : Prop :=
  forall (vs : list Vertex.t) (m : mat4) (fmt : VertFormat),
    PackedVertList_size (PackVerts vs m fmt) = length vs.

(** The colour [ToMesh] gives to every vertex of a mesh packed for
    [SingleColorShader] out of a source whose first vertex has colour
    [first]: the modifiers are still those the constructor sets. *)
Definition flat_color (first : vec4) : vec4 :=
  vec4_add (vec4_mul first (Vec4 fone fone fone fone))
           (Vec4 fzero fzero fzero fzero).
End MorePackedVocabulary.

(** ** An implementation of the headers on the integer grid

    Scalars are integers, a matrix is an affine map of the plane with
    integer coefficients, and packing translates the envelope to the
    origin.  The examples below run the operations on it. *)

Module Grid.
Definition platform : Platform :=
  {| F := Z; fzero := 0; fone := 1; fadd := Z.add; fmul := Z.mul;
     flt := Z.ltb; InputTimeS := Z; FrameTimeS := Z; FrameTimeS_zero := 0;
     assert_enabled := true |}.
#[local] Existing Instance platform.

(** The map [(x, y) -> (a11 x + a12 y + t1, a21 x + a22 y + t2)]. *)
Record affine : Set := Affine { a11 : Z; a12 : Z; a21 : Z; a22 : Z; t1 : Z; t2 : Z }.

Definition identity : affine := Affine 1 0 0 1 0 0.
Definition scale (s : Z) : affine := Affine s 0 0 s 0 0.
Definition translate (dx dy : Z) : affine := Affine 1 0 0 1 dx dy.

Definition apply (m : affine) (p : vec2) : vec2 :=
  Vec2 (a11 m * v2x p + a12 m * v2y p + t1 m)
       (a21 m * v2x p + a22 m * v2y p + t2 m).

(** [compose m n] applies [n] first. *)
Definition compose (m n : affine) : affine :=
  Affine (a11 m * a11 n + a12 m * a21 n) (a11 m * a12 n + a12 m * a22 n)
         (a21 m * a11 n + a22 m * a21 n) (a21 m * a12 n + a22 m * a22 n)
         (a11 m * t1 n + a12 m * t2 n + t1 m)
         (a21 m * t1 n + a22 m * t2 n + t2 m).

(** Exact when the determinant divides the coefficients, as it does for
    the translations and the identity used here. *)
Definition inverse (m : affine) : affine :=
  let det := a11 m * a22 m - a12 m * a21 m in
  let b11 := a22 m / det in
  let b12 := - a12 m / det in
  let b21 := - a21 m / det in
  let b22 := a11 m / det in
  Affine b11 b12 b21 b22
         (- (b11 * t1 m + b12 * t2 m)) (- (b21 * t1 m + b22 * t2 m)).

Record rect : Set := MkRect { lo_x : Z; lo_y : Z; hi_x : Z; hi_y : Z }.

Definition at_point (p : vec2) : rect := MkRect (v2x p) (v2y p) (v2x p) (v2y p).

Definition join (r s : rect) : rect :=
  MkRect (Z.min (lo_x r) (lo_x s)) (Z.min (lo_y r) (lo_y s))
         (Z.max (hi_x r) (hi_x s)) (Z.max (hi_y r) (hi_y s)).

Definition envelope (pts : list vec2) : rect :=
  match pts with
  | [] => MkRect 0 0 0 0
  | p :: ps => fold_left (fun r q => join r (at_point q)) ps (at_point p)
  end.

Definition contains (r s : rect) : bool :=
  (lo_x r <=? lo_x s) && (lo_y r <=? lo_y s)
  && (hi_x s <=? hi_x r) && (hi_y s <=? hi_y r).

Definition transform_rect (r : rect) (m : affine) : rect :=
  envelope [apply m (Vec2 (lo_x r) (lo_y r)); apply m (Vec2 (hi_x r) (lo_y r));
            apply m (Vec2 (hi_x r) (hi_y r)); apply m (Vec2 (lo_x r) (hi_y r))].

(** Half the determinant of [b - a] and [c - a]. *)
Definition signed_area (a b c : vec2) : Z :=
  ((v2x b - v2x a) * (v2y c - v2y a) - (v2y b - v2y a) * (v2x c - v2x a)) / 2.

Definition geometry : Geometry :=
  {| mat4 := affine;
     mat4_identity := identity;
     mat4_mul := compose;
     mat4_inverse := inverse;
     mat4_apply := fun m v =>
       let p := apply m (Vec2 (v4x v) (v4y v)) in
       Vec4 (v2x p) (v2y p) (v4z v) (v4w v);
     Transform := fun p m => apply m p;
     Rect := rect;
     Rect_default := MkRect 0 0 0 0;
     Envelope := envelope;
     Rect_Contains := contains;
     Rect_Transform := transform_rect;
     Rect_CreateAtPoint := at_point;
     AssignOrJoinTo := fun r dest =>
       match dest with
       | Some d => Some (join d r)
       | None => Some r
       end;
     SignedArea := signed_area;
     TextureInfo := Z |}.
#[local] Existing Instance geometry.

(** A packed list keeps its format and the vertices moved by the packing
    transform; unpacking writes the attributes that the format stores. *)
Record packed : Type := MkPacked { p_fmt : VertFormat; p_data : list Vertex.t }.

Definition unpack (pv : packed) (i : Z) (v : Vertex.t) : Vertex.t :=
  match p_data pv !! Z.to_nat i with
  | Some u =>
      match p_fmt pv with
      | x12y12 => Vertex.set_position v (Vertex.position u)
      | x11a7r6y11g7b6 =>
          Vertex.Make (Vertex.position u) (Vertex.color u)
                      (Vertex.texture_coords v)
      | x11a7r6y11g7b6u12v12 => u
      end
  | None => v
  end.

Definition packing : Packing :=
  {| PackedVertList := packed;
     PackedVertList_size := fun pv => length (p_data pv);
     UnpackVertex := unpack;
     PackedVertList_Clear := fun pv => MkPacked (p_fmt pv) [];
     CalcTransformForFormat := fun env _ => translate (- lo_x env) (- lo_y env);
     PackVerts := fun vs m fmt =>
       MkPacked fmt
         (map (fun v => Vertex.set_position v (apply m (Vertex.position v))) vs) |}.
#[local] Existing Instance packing.

(** *** Meshes to run the operations on *)

Definition red : vec4 := Vec4 1 0 0 1.
Definition blue : vec4 := Vec4 0 0 1 1.

Definition vertex (x y : Z) (c : vec4) : Vertex.t :=
  Vertex.Make (Vec2 x y) c None.

(** A square with corner (5, 5), cut into a counter-clockwise and a
    clockwise triangle. *)
Definition square : Mesh.t :=
  Mesh.Make [vertex 5 5 red; vertex 15 5 red; vertex 15 15 blue; vertex 5 15 blue]
            [0; 1; 2; 0; 3; 2] (Some 7) identity ShaderMetadata.Default.

(** One triangle around (1, 1), in a space twice as large. *)
Definition doubled : Mesh.t :=
  Mesh.Make [vertex 1 1 blue; vertex 2 1 blue; vertex 1 2 blue]
            [0; 1; 2] None (scale 2) ShaderMetadata.Default.

(** [kMax16] copies of one vertex, and one triangle. *)
Definition crowd : Mesh.t :=
  Mesh.Make (replicate (Z.to_nat 65535) (vertex 3 4 red))
            [0; 1; 2] None identity ShaderMetadata.Default.

(** Three loose vertices: a mesh without indices. *)
Definition loose : Mesh.t :=
  Mesh.Make [vertex 0 0 red; vertex 4 0 red; vertex 0 4 red]
            [] None identity ShaderMetadata.Default.

(** A mesh that breaks the contract of the constructor: four indices. *)
Definition ragged : Mesh.t :=
  Mesh.Make [vertex 0 0 red; vertex 4 0 red; vertex 0 4 red]
            [0; 1; 2; 0] None identity ShaderMetadata.Default.

(** A mesh that breaks it the other way: one index triple, no vertex. *)
Definition hollow : Mesh.t :=
  Mesh.Make [] [0; 1; 2] None identity ShaderMetadata.Default.

(** The envelopes of the square and of the crowd, the bounds handed to the
    constructor. *)
Definition square_envelope : rect :=
  envelope (map Vertex.position (Mesh.verts square)).
Definition crowd_envelope : rect :=
  envelope (map Vertex.position (Mesh.verts crowd)).

(** A builder whose callback paints the vertex blue and counts its calls
    in its host state. *)
Definition paint_and_count : FatLine.VertAddFn (Host := nat) :=
  fun _ _ _ _ v calls => (Vertex.set_color v blue, S calls).

Definition builder (callback : option (FatLine.VertAddFn (Host := nat * list Call)))
  : FatLine.t (Host := nat * list Call) (MidPoint := vec2) (TipModel := unit) :=
  FatLine.Make callback 1 (FatLine.MkTipSize 30 30) 12 (FatLine.MkStylus 9 0)
               (Some tt) [vertex 0 0 red] [] [] [] [] 20 (Vec2 4 4) false
               (Vec2 0 0).
End Grid.

(** ** More meshes and builders on the grid *)

Module GridMore.
Import Grid.
#[local] Existing Instance platform.
#[local] Existing Instance geometry.
#[local] Existing Instance packing.

(** A triangle one of whose indices is no vertex. *)
Definition dangling : Mesh.t :=
  Mesh.Make [vertex 0 0 red; vertex 4 0 red; vertex 0 4 red]
            [0; 1; 7] None identity ShaderMetadata.Default.

(** The mesh a successful operation returns. *)
Definition unwrap (r : result Mesh.t) : Mesh.t :=
  match r with
  | Ok m => m
  | Fatal _ => Mesh.Default
  end.

(** The square, the doubled triangle and the ragged mesh appended in the
    two possible groupings. *)
Definition square_doubled : Mesh.t := unwrap (Mesh.Append square doubled).
Definition doubled_ragged : Mesh.t := unwrap (Mesh.Append doubled ragged).
Definition left_grouped : Mesh.t := unwrap (Mesh.Append square_doubled ragged).
Definition right_grouped : Mesh.t := unwrap (Mesh.Append square doubled_ragged).

(** The envelope of the three loose vertices. *)
Definition loose_envelope : rect :=
  envelope (map Vertex.position (Mesh.verts loose)).

(** An envelope that does not contain the square. *)
Definition speck : rect := MkRect 0 0 1 1.

(** The square packed for [ColoredVertShader]. *)
Definition packed_square : OptimizedMesh.t :=
  constructed ColoredVertShader square square_envelope.

(** Three points to append in a row. *)
Definition stroke : list vec2 := [Vec2 1 1; Vec2 2 3; Vec2 5 8].

(** Tip types, and tip models that are nothing but their type. *)
Inductive tip : Set := Round | Square.

Definition tip_eq_dec : EqDecision tip.
Proof. solve_decision. Defined.
#[local] Existing Instance tip_eq_dec.

Definition tipped (model : option tip)
  : FatLine.t (Host := nat) (MidPoint := vec2) (TipModel := tip) :=
  FatLine.Make None 1 (FatLine.MkTipSize 30 30) 12 (FatLine.MkStylus 9 0)
               model [vertex 0 0 red] [] [] [] [Vec2 0 0] 20 (Vec2 4 4) false
               (Vec2 0 0).
End GridMore.

(** ** A grid built without [ASSERT]

    Integer scalars and the same signed area; no transform and no
    rectangle is needed where it is used. *)

Module Unchecked.
Definition platform : Platform :=
  {| F := Z; fzero := 0; fone := 1; fadd := Z.add; fmul := Z.mul;
     flt := Z.ltb; InputTimeS := Z; FrameTimeS := Z; FrameTimeS_zero := 0;
     assert_enabled := false |}.
#[local] Existing Instance platform.

Definition signed_area (a b c : vec2) : Z :=
  ((v2x b - v2x a) * (v2y c - v2y a) - (v2y b - v2y a) * (v2x c - v2x a)) / 2.

Definition geometry : Geometry :=
  {| mat4 := unit;
     mat4_identity := tt;
     mat4_mul := fun _ _ => tt;
     mat4_inverse := fun _ => tt;
     mat4_apply := fun _ v => v;
     Transform := fun p _ => p;
     Rect := unit;
     Rect_default := tt;
     Envelope := fun _ => tt;
     Rect_Contains := fun _ _ => true;
     Rect_Transform := fun r _ => r;
     Rect_CreateAtPoint := fun _ => tt;
     AssignOrJoinTo := fun r _ => Some r;
     SignedArea := signed_area;
     TextureInfo := unit |}.
#[local] Existing Instance geometry.

Definition vertex (x y : Z) : Vertex.t :=
  Vertex.Make (Vec2 x y) (Vec4 0 0 0 1) None.

(** A clockwise triangle followed by one index too many. *)
Definition pennant : Mesh.t :=
  Mesh.Make [vertex 0 0; vertex 4 0; vertex 0 4; vertex 4 4]
            [0; 2; 1; 3] None tt ShaderMetadata.Default.

(** A mesh one of whose indices does not fit sixteen bits. *)
Definition wide : Mesh.t :=
  Mesh.Make [vertex 0 0; vertex 4 0; vertex 0 4]
            [0; 1; 65538] None tt ShaderMetadata.Default.
End Unchecked.

(** * Properties *)

(** ** Loops and their recursive readings *)

(** Runs the binds whose first computation is a known result. *)
Ltac run := cbn [mbind result_mbind result_bind].
Tactic Notation "run" "in" hyp(H) :=
  cbn [mbind result_mbind result_bind] in H.

Section LoopFacts.
Context `{G : Geometry}.

Lemma vec_at_app_r {A} (pre l : list A) (k : nat) :
  vec_at (pre ++ l) (length pre + k) = vec_at l k.
Proof.
  unfold vec_at. rewrite lookup_app_r by lia.
  by replace (length pre + k - length pre)%nat with k by lia.
Qed.

Lemma vec_at_Some {A} (l : list A) (k : nat) (a : A) :
  l !! k = Some a -> vec_at l k = Ok a.
Proof. unfold vec_at. by intros ->. Qed.

Lemma div3_cons3 {A} (a b c : A) (rest : list A) :
  (length (a :: b :: c :: rest) / 3 = S (length rest / 3))%nat.
Proof.
  cbn [length].
  replace (S (S (S (length rest)))) with (1 * 3 + length rest)%nat by lia.
  rewrite Nat.div_add_l by lia. lia.
Qed.

Section WithGetter.
Variable getter : Z -> result vec2.

Lemma normalize_triangle_at (pre : list Z) a b c rest k :
  length pre = (3 * k)%nat ->
  normalize_triangle getter (pre ++ a :: b :: c :: rest) k =
    (pa ← getter a; pb ← getter b; pc ← getter c;
     Ok (pre ++ (if negative_area pa pb pc then [a; c; b] else [a; b; c])
             ++ rest)).
Proof.
  intros Hpre. unfold normalize_triangle, swap_elems.
  replace (3 * k)%nat with (length pre + 0)%nat by lia.
  replace (length pre + 0 + 1)%nat with (length pre + 1)%nat by lia.
  replace (length pre + 0 + 2)%nat with (length pre + 2)%nat by lia.
  rewrite !vec_at_app_r. cbn.
  destruct (getter a) as [pa|]; cbn; [|done].
  destruct (getter b) as [pb|]; cbn; [|done].
  destruct (getter c) as [pc|]; cbn; [|done].
  destruct (negative_area pa pb pc); [|done].
  by rewrite !insert_app_r.
Qed.

Lemma for_range_normalize n : forall (pre l : list Z) k,
  length pre = (3 * k)%nat -> n = (length l / 3)%nat ->
  for_range (normalize_triangle getter) k n (pre ++ l) =
    (l' ← normalize_triples getter l; Ok (pre ++ l')).
Proof.
  induction n as [|n IH]; intros pre l k Hpre Hn.
  - destruct l as [|a [|b [|c rest]]]; try done.
    rewrite div3_cons3 in Hn. lia.
  - destruct l as [|a [|b [|c rest]]]; try (cbn in Hn; lia).
    rewrite div3_cons3 in Hn.
    cbn [for_range]. rewrite normalize_triangle_at by done.
    cbn [normalize_triples].
    destruct (getter a) as [pa|]; cbn; [|done].
    destruct (getter b) as [pb|]; cbn; [|done].
    destruct (getter c) as [pc|]; cbn; [|done].
    rewrite app_assoc, IH; [| |lia].
    + destruct (normalize_triples getter rest) as [rest'|]; cbn; [|done].
      destruct (negative_area pa pb pc); by rewrite <- app_assoc.
    + rewrite length_app, Hpre.
      destruct (negative_area pa pb pc); cbn; lia.
Qed.

Lemma NormalizeTriangleHelper_triples (l : list Z) :
  NormalizeTriangleHelper getter l =
    (ASSERT (length l mod 3 =? 0)%nat;; normalize_triples getter l).
Proof.
  unfold NormalizeTriangleHelper.
  destruct (ASSERT _) as [[]|]; cbn; [|done].
  rewrite (for_range_normalize _ [] l 0) by done.
  by destruct (normalize_triples getter l).
Qed.
End WithGetter.
End LoopFacts.

(** ** Orientation of index triples *)

Section OrientFacts.
Context `{G : Geometry}.
Variable pos : Z -> vec2.

(** Induction over a list three elements at a time. *)
Lemma triples_ind {A} (Q : list A -> Prop) :
  Q [] -> (forall a, Q [a]) -> (forall a b, Q [a; b]) ->
  (forall a b c rest, Q rest -> Q (a :: b :: c :: rest)) ->
  forall l, Q l.
Proof.
  intros H0 H1 H2 H3.
  fix IH 1.
  intros [|a [|b [|c rest]]];
    [exact H0 | apply H1 | apply H2 | apply H3, IH].
Qed.

Lemma normalize_triples_total getter (l : list Z) :
  Forall (fun k => getter k = Ok (pos k)) l ->
  normalize_triples getter l = Ok (orient_all pos l).
Proof.
  induction l as [|a|a b|a b c rest IH] using triples_ind; try done.
  intros Hl.
  apply Forall_cons in Hl as [Ha Hl].
  apply Forall_cons in Hl as [Hb Hl].
  apply Forall_cons in Hl as [Hc Hl].
  cbn. rewrite Ha, Hb, Hc, (IH Hl). cbn.
  by destruct (negative_area _ _ _).
Qed.

Lemma orient_all_length (l : list Z) :
  length (orient_all pos l) = length l.
Proof.
  induction l as [|a|a b|a b c rest IH] using triples_ind; try done.
  cbn. destruct (negative_area _ _ _); cbn; by rewrite IH.
Qed.

Lemma orient_all_triangles (l : list Z) :
  triangles (orient_all pos l) = map (oriented pos) (triangles l).
Proof.
  induction l as [|a|a b|a b c rest IH] using triples_ind; try done.
  cbn. unfold oriented. cbn.
  destruct (negative_area _ _ _); cbn; by rewrite IH.
Qed.

Lemma orient_all_Forall (Q : Z -> Prop) (l : list Z) :
  Forall Q l -> Forall Q (orient_all pos l).
Proof.
  induction l as [|a|a b|a b c rest IH] using triples_ind; try done.
  intros Hl.
  apply Forall_cons in Hl as [Ha Hl].
  apply Forall_cons in Hl as [Hb Hl].
  apply Forall_cons in Hl as [Hc Hl].
  cbn. destruct (negative_area _ _ _); repeat constructor; auto.
Qed.

Lemma orient_all_Permutation (l : list Z) : orient_all pos l ≡ₚ l.
Proof.
  induction l as [|a|a b|a b c rest IH] using triples_ind; try done.
  cbn. destruct (negative_area _ _ _).
  - rewrite IH. constructor. apply perm_swap.
  - by rewrite IH.
Qed.

Section Antisymmetric.
Hypothesis antisym : SignedArea_antisymmetric.

Lemma orient_all_nonnegative (l : list Z) :
  Forall (fun t => negative_triangle pos t = false)
         (triangles (orient_all pos l)).
Proof.
  induction l as [|a|a b|a b c rest IH] using triples_ind;
    try by constructor.
  cbn. destruct (negative_area _ _ _) eqn:E; cbn; constructor; auto.
  cbn. by apply antisym.
Qed.

Lemma orient_all_idempotent (l : list Z) :
  orient_all pos (orient_all pos l) = orient_all pos l.
Proof.
  induction l as [|a|a b|a b c rest IH] using triples_ind; try done.
  cbn. destruct (negative_area _ _ _) eqn:E; cbn.
  - by rewrite (antisym _ _ _ E), IH.
  - by rewrite E, IH.
Qed.
End Antisymmetric.
End OrientFacts.

(** ** Integers, folds and the loops of [Mesh] *)

Section IntegerFacts.
Lemma to_uint32_small (z : Z) : (0 <= z < 2 ^ 32)%Z -> to_uint32 z = z.
Proof. intros Hz. unfold to_uint32. by apply Z.mod_small. Qed.

Lemma to_uint16_small (z : Z) : (0 <= z < 2 ^ 16)%Z -> to_uint16 z = z.
Proof. intros Hz. unfold to_uint16. by apply Z.mod_small. Qed.

Lemma map_id_on {A} (f : A -> A) (l : list A) :
  Forall (fun a => f a = a) l -> map f l = l.
Proof. induction 1 as [|a l Ha _ IH]; cbn; [done|]. by rewrite Ha, IH. Qed.

Lemma fold_left_snoc {A B} (f : B -> A) (l : list B) (acc : list A) :
  fold_left (fun acc x => acc ++ [f x]) l acc = acc ++ map f l.
Proof.
  revert acc. induction l as [|b l IH]; intros acc; cbn.
  - by rewrite app_nil_r.
  - by rewrite IH, <- app_assoc.
Qed.

Lemma empty_false {A} (l : list A) : empty l = false <-> l <> [].
Proof. by destruct l. Qed.
End IntegerFacts.

Section MeshFacts.
Context `{G : Geometry}.

Lemma all_below_Forall (n : nat) (l : list Z) :
  all_below n l = true <-> Forall (fun k => (0 <= k < Z.of_nat n)%Z) l.
Proof.
  unfold all_below. rewrite forallb_forall, Forall_forall.
  split; intros H k Hk.
  - apply list_elem_of_In, H in Hk. lia.
  - apply list_elem_of_In, H in Hk. lia.
Qed.

Lemma offsets_fit_Forall (n : nat) (l : list Z) :
  offsets_fit n l = true <->
  Forall (fun k => (0 <= k /\ k + Z.of_nat n < 2 ^ 32)%Z) l.
Proof.
  unfold offsets_fit. rewrite forallb_forall, Forall_forall.
  split; intros H k Hk.
  - apply list_elem_of_In, H in Hk. lia.
  - apply list_elem_of_In, H in Hk. lia.
Qed.

Lemma vec_at_in_range (vs : list Vertex.t) (k : Z) :
  (0 <= k < Z.of_nat (length vs))%Z ->
  vec_at vs (Z.to_nat k) = Ok (nth (Z.to_nat k) vs Vertex.Default).
Proof.
  intros Hk. unfold vec_at.
  destruct (lookup_lt_is_Some_2 vs (Z.to_nat k)) as [v Hv]; [lia|].
  by rewrite Hv, (nth_lookup_Some _ _ _ _ Hv).
Qed.

Lemma position_getter_in_range (m : Mesh.t) (k : Z) :
  (0 <= k < Z.of_nat (length (Mesh.verts m)))%Z ->
  Mesh.position_getter m k = Ok (position_at (Mesh.verts m) k).
Proof.
  intros Hk. unfold Mesh.position_getter, position_at.
  by rewrite vec_at_in_range.
Qed.

(** The loop of [Deindex], started with [filled] entries written. *)
Lemma Deindex_loop (vs : list Vertex.t) (ix : list Z) :
  Forall (fun k => (0 <= k < Z.of_nat (length vs))%Z) ix ->
  forall (count : nat) (filled : list Vertex.t),
    (length filled + count = length ix)%nat ->
    for_range
      (fun (new_verts : list Vertex.t) i =>
         k ← vec_at ix i;
         v ← vec_at vs (Z.to_nat k);
         Ok (<[i:=v]> new_verts))
      (length filled) count (filled ++ replicate count Vertex.Default)
    = Ok (filled ++ map (fun k => nth (Z.to_nat k) vs Vertex.Default)
                      (drop (length filled) ix)).
Proof.
  intros Hix. induction count as [|count IH]; intros filled Hlen.
  - cbn. by rewrite drop_ge, !app_nil_r by lia.
  - cbn [for_range].
    destruct (lookup_lt_is_Some_2 ix (length filled)) as [k Hk]; [lia|].
    rewrite (vec_at_Some _ _ _ Hk). cbn.
    assert (0 <= k < Z.of_nat (length vs))%Z as Hr.
    { rewrite Forall_forall in Hix. eapply Hix, list_elem_of_lookup_2, Hk. }
    rewrite (vec_at_in_range _ _ Hr). cbn.
    rewrite insert_app_r_alt, Nat.sub_diag by lia. cbn.
    set (v := nth (Z.to_nat k) vs Vertex.Default).
    replace (filled ++ v :: replicate count Vertex.Default)
      with ((filled ++ [v]) ++ replicate count Vertex.Default)
      by (by rewrite <- app_assoc).
    replace (S (length filled)) with (length (filled ++ [v]))
      by (rewrite length_app; cbn; lia).
    rewrite IH by (rewrite length_app; cbn; lia).
    rewrite (drop_S _ _ _ Hk). cbn.
    rewrite <- app_assoc. cbn.
    rewrite length_app. cbn.
    by replace (length filled + 1)%nat with (S (length filled)) by lia.
Qed.

Lemma resize_length (n : nat) (v : list Z) : length (Mesh.resize n v) = n.
Proof.
  unfold Mesh.resize. rewrite length_app, length_take, length_replicate. lia.
Qed.

Lemma GenIndex_idx (m : Mesh.t) :
  Mesh.idx (Mesh.GenIndex m) = map Z.of_nat (seq 0 (length (Mesh.verts m))).
Proof.
  unfold Mesh.GenIndex, Mesh.iota. cbn.
  by rewrite imap_seq_0, resize_length.
Qed.

Lemma map_nth_seq {A} (d : A) (l : list A) :
  map (fun i => nth i l d) (seq 0 (length l)) = l.
Proof.
  induction l as [|a l IH]; cbn; [done|].
  f_equal. rewrite <- seq_shift, map_map. exact IH.
Qed.
End MeshFacts.

(** ** The raw mesh *)

Section MeshClaims.
Context `{G : Geometry}.

Lemma ASSERT_true (c : bool) : c = true -> ASSERT c = Ok tt.
Proof. intros ->. unfold ASSERT. by rewrite andb_false_r. Qed.

(** Indices in range fit after the offset as long as the two meshes together
    have at most [2^32] vertices. *)
Lemma in_range_offsets_fit (A B : Mesh.t) :
  indices_in_range B = true ->
  Z.of_nat (length (Mesh.verts A)) + Z.of_nat (length (Mesh.verts B)) <= 2 ^ 32 ->
  offsets_fit (length (Mesh.verts A)) (Mesh.idx B) = true.
Proof.
  intros Hr Hsize. apply offsets_fit_Forall.
  apply all_below_Forall in Hr.
  eapply Forall_impl; [exact Hr|].
  intros k Hk. cbn in Hk. lia.
Qed.

(** C4.  When the arity precondition of [Append] holds and no index of [B],
    raised by the vertex count of [A], leaves [uint32_t], [A.Append(B)]
    returns [A] with, after its own vertices, every vertex of [B] whose
    position went through [inverse(A.object_matrix) * B.object_matrix] and
    whose colour and texture coordinate are those of [B]; with, after its
    own indices, every index of [B] plus the vertex count [A] had, in
    order; and with the texture, transform and shader metadata of [A]. *)
Theorem Append_concatenates (A B : Mesh.t) :
  Mesh.append_arity A B = true ->
  offsets_fit (length (Mesh.verts A)) (Mesh.idx B) = true ->
  let t := mat4_mul (mat4_inverse (Mesh.object_matrix A))
                    (Mesh.object_matrix B) in
  Mesh.Append A B =
    Ok (Mesh.Make
          (Mesh.verts A ++
           map (fun v => Vertex.Make (Transform (Vertex.position v) t)
                                     (Vertex.color v)
                                     (Vertex.texture_coords v))
               (Mesh.verts B))
          (Mesh.idx A ++
           map (fun i => (i + Z.of_nat (length (Mesh.verts A)))%Z)
               (Mesh.idx B))
          (Mesh.texture A) (Mesh.object_matrix A) (Mesh.shader_metadata A)).
Proof.
  intros Harity Hfit t. unfold Mesh.Append.
  rewrite (ASSERT_true _ Harity). cbn.
  unfold Mesh.set_idx, Mesh.set_verts. cbn.
  rewrite !fold_left_snoc. do 3 f_equal.
  rewrite <- (map_map (fun i => (i + Z.of_nat (length (Mesh.verts A)))%Z)
                      to_uint32).
  apply map_id_on, Forall_map.
  apply offsets_fit_Forall in Hfit.
  eapply Forall_impl; [exact Hfit|].
  intros k Hk. cbn in *. apply to_uint32_small. lia.
Qed.

Lemma Deindex_indexed (m : Mesh.t) :
  Mesh.idx m <> [] -> indices_in_range m = true ->
  Mesh.Deindex m =
    Ok (Mesh.Make
          (map (fun k => nth (Z.to_nat k) (Mesh.verts m) Vertex.Default)
               (Mesh.idx m))
          [] (Mesh.texture m) (Mesh.object_matrix m)
          (Mesh.shader_metadata m)).
Proof.
  intros Hne Hr. unfold Mesh.Deindex.
  apply empty_false in Hne. rewrite Hne.
  apply all_below_Forall in Hr.
  pose proof (Deindex_loop (Mesh.verts m) (Mesh.idx m) Hr
                           (length (Mesh.idx m)) [] eq_refl) as Hloop.
  cbn in Hloop. rewrite Hloop. reflexivity.
Qed.

Lemma index_positions_GenIndex (m : Mesh.t) :
  index_positions (Mesh.GenIndex m) = map Vertex.position (Mesh.verts m).
Proof.
  unfold index_positions. rewrite GenIndex_idx.
  cbn [Mesh.verts Mesh.GenIndex Mesh.set_idx].
  rewrite map_map.
  transitivity
    (map Vertex.position
       (map (fun i => nth i (Mesh.verts m) Vertex.Default)
            (seq 0 (length (Mesh.verts m)))));
    [|by rewrite map_nth_seq].
  rewrite map_map. apply map_ext. intros i.
  unfold position_at. by rewrite Nat2Z.id.
Qed.

(** C7.  On an indexed mesh whose indices are in range, [Deindex] succeeds,
    leaves one vertex per index occurrence, the [i]-th being the old vertex
    at the old [i]-th index, and no index; on a mesh without indices it
    returns the mesh as it is.  [GenIndex] on the deindexed mesh then
    writes the indices [0, 1, ..., n-1], [n] being the number of index
    occurrences of the original, over the vertices [Deindex] left; the
    positions these indices name are, index by index, those the original
    indices named, so consecutive index triples give the same triangles
    (shared vertices or not).  On a mesh without indices [GenIndex] writes
    one index per vertex, in vertex order. *)
Theorem Deindex_GenIndex (m : Mesh.t) :
  (Mesh.idx m <> [] -> indices_in_range m = true ->
   exists m',
     Mesh.Deindex m = Ok m' /\
     length (Mesh.verts m') = length (Mesh.idx m) /\
     (forall i k, Mesh.idx m !! i = Some k ->
                  Mesh.verts m' !! i = Mesh.verts m !! Z.to_nat k) /\
     Mesh.idx m' = [] /\
     Mesh.texture m' = Mesh.texture m /\
     Mesh.object_matrix m' = Mesh.object_matrix m /\
     Mesh.shader_metadata m' = Mesh.shader_metadata m)
  /\ (Mesh.idx m = [] -> Mesh.Deindex m = Ok m)
  /\ (Mesh.idx m <> [] -> indices_in_range m = true ->
      exists m',
        Mesh.Deindex m = Ok m' /\
        Mesh.idx (Mesh.GenIndex m')
        = map Z.of_nat (seq 0 (length (Mesh.idx m))) /\
        Mesh.verts (Mesh.GenIndex m') = Mesh.verts m' /\
        index_positions (Mesh.GenIndex m') = index_positions m /\
        triangles (index_positions (Mesh.GenIndex m'))
        = triangles (index_positions m))
  /\ (Mesh.idx m = [] ->
      Mesh.idx (Mesh.GenIndex m)
      = map Z.of_nat (seq 0 (length (Mesh.verts m))) /\
      index_positions (Mesh.GenIndex m)
      = map Vertex.position (Mesh.verts m)).
Proof.
  split; [|split; [|split]].
  - intros Hne Hr. eexists. split; [by apply Deindex_indexed|].
    cbn. rewrite length_map. repeat split; try done.
    intros i k Hk. rewrite list_lookup_fmap, Hk. cbn.
    apply all_below_Forall in Hr. rewrite Forall_forall in Hr.
    pose proof (Hr k (list_elem_of_lookup_2 _ _ _ Hk)) as Hb.
    destruct (lookup_lt_is_Some_2 (Mesh.verts m) (Z.to_nat k)) as [v Hv];
      [lia|].
    by rewrite Hv, (nth_lookup_Some _ _ _ _ Hv).
  - intros Hix. unfold Mesh.Deindex. by rewrite Hix.
  - intros Hne Hr. eexists. split; [by apply Deindex_indexed|].
    assert (forall m0, Mesh.verts (Mesh.GenIndex m0) = Mesh.verts m0) as Hv
      by (by intros []).
    assert (forall m0, index_positions (Mesh.GenIndex m0)
                       = map Vertex.position (Mesh.verts m0)) as Hp
      by apply index_positions_GenIndex.
    split; [|split; [apply Hv|]].
    { rewrite GenIndex_idx. cbn [Mesh.verts]. by rewrite length_map. }
    assert (index_positions
              (Mesh.GenIndex
                 (Mesh.Make
                    (map (fun k => nth (Z.to_nat k) (Mesh.verts m)
                                       Vertex.Default) (Mesh.idx m))
                    [] (Mesh.texture m) (Mesh.object_matrix m)
                    (Mesh.shader_metadata m)))
            = index_positions m) as Hsame.
    { rewrite Hp. cbn [Mesh.verts]. rewrite map_map. reflexivity. }
    split; [exact Hsame|]. by rewrite Hsame.
  - intros Hix. split; [apply GenIndex_idx|apply index_positions_GenIndex].
Qed.

(** [Mesh::Index16] is guarded by an [ASSERT] only: where [ASSERT] is
    compiled out it converts every index to [uint16_t], whatever the
    vertex count; where it is compiled in, a mesh of [kMax16] vertices or
    more makes it fail. *)
Lemma Mesh_Index16_unchecked (m : Mesh.t) :
  assert_enabled = false ->
  Mesh.Index16 m = Ok (map to_uint16 (Mesh.idx m)).
Proof. intros Hoff. unfold Mesh.Index16, ASSERT. by rewrite Hoff. Qed.

Lemma Mesh_Index16_checked (m : Mesh.t) :
  assert_enabled = true ->
  Mesh.Index16 m
  = if Mesh.Has16BitIndex m then Ok (map to_uint16 (Mesh.idx m))
    else Fatal AssertFailed.
Proof.
  intros Hon. unfold Mesh.Index16, ASSERT. rewrite Hon.
  by destruct (Mesh.Has16BitIndex m).
Qed.

(** C5.  For a signed area that changes sign with the order of the last two
    corners, and a mesh whose index count is a multiple of three and whose
    indices are in range: [NormalizeTriangleOrientation] succeeds, keeps
    the vertices and the number of indices, leaves every triangle of
    non-negative signed area as it is and exchanges the second and third
    index of every triangle of negative signed area; afterwards no triangle
    has negative signed area, and running the operation again changes
    nothing. *)
Theorem NormalizeTriangleOrientation_orients (m : Mesh.t) :
  SignedArea_antisymmetric ->
  (length (Mesh.idx m) mod 3 = 0)%nat ->
  indices_in_range m = true ->
  exists m',
    Mesh.NormalizeTriangleOrientation m = Ok m' /\
    Mesh.verts m' = Mesh.verts m /\
    length (Mesh.idx m') = length (Mesh.idx m) /\
    triangles (Mesh.idx m')
    = map (oriented (position_at (Mesh.verts m))) (triangles (Mesh.idx m)) /\
    Forall (fun t => negative_triangle (position_at (Mesh.verts m')) t = false)
           (triangles (Mesh.idx m')) /\
    Mesh.NormalizeTriangleOrientation m' = Ok m'.
Proof.
  intros Hanti Hmod Hr.
  set (pos := position_at (Mesh.verts m)).
  assert (forall l, all_below (length (Mesh.verts m)) l = true ->
                    (length l mod 3 = 0)%nat ->
                    NormalizeTriangleHelper (Mesh.position_getter m) l
                    = Ok (orient_all pos l)) as Hrun.
  { intros l Hl Hl3. rewrite NormalizeTriangleHelper_triples.
    rewrite ASSERT_true by (by apply Nat.eqb_eq). cbn.
    apply normalize_triples_total.
    apply all_below_Forall in Hl.
    eapply Forall_impl; [exact Hl|].
    intros k Hk. by apply position_getter_in_range. }
  exists (Mesh.set_idx m (orient_all pos (Mesh.idx m))).
  split; [|split; [|split; [|split; [|split]]]].
  - unfold Mesh.NormalizeTriangleOrientation. by rewrite Hrun.
  - done.
  - cbn. apply orient_all_length.
  - cbn. apply orient_all_triangles.
  - cbn. by apply orient_all_nonnegative.
  - unfold Mesh.NormalizeTriangleOrientation.
    change (Mesh.position_getter (Mesh.set_idx m (orient_all pos (Mesh.idx m))))
      with (Mesh.position_getter m).
    cbn [Mesh.idx Mesh.set_idx].
    rewrite Hrun.
    + cbn. by rewrite orient_all_idempotent.
    + apply all_below_Forall, orient_all_Forall.
      by apply all_below_Forall.
    + by rewrite orient_all_length.
Qed.
End MeshClaims.

(** ** Construction of the packed mesh *)

Section PackedFacts.
Context `{K : Packing}.
Import OptimizedMesh.

Lemma VertexFormat_ok (type : ShaderType) :
  assert_enabled && ShaderType_eqb type OtherShader = false ->
  VertexFormat type = Ok (format_of type).
Proof.
  intros H. destruct type; try done.
  unfold VertexFormat, ASSERT. cbn in *.
  rewrite andb_true_r in *. by rewrite H.
Qed.

Lemma normalize_unpacked (packed : PackedVertList) (l : list Z) :
  assert_enabled && negb (length l mod 3 =? 0)%nat = false ->
  NormalizeTriangleHelper (unpacked_position packed) l
  = Ok (orient_all (packed_position packed) l).
Proof.
  intros H. rewrite NormalizeTriangleHelper_triples.
  unfold ASSERT. rewrite H. cbn.
  apply normalize_triples_total, Forall_forall. done.
Qed.

Lemma precondition_parts (mesh : Mesh.t) :
  construction_precondition mesh = true ->
  Mesh.verts mesh <> [] /\ Mesh.idx mesh <> [] /\
  (length (Mesh.idx mesh) mod 3 = 0)%nat.
Proof.
  unfold construction_precondition. intros H.
  apply andb_true_iff in H as [H H3].
  apply andb_true_iff in H as [Hv Hi].
  apply negb_true_iff, empty_false in Hv, Hi.
  by apply Nat.eqb_eq in H3.
Qed.

Lemma Populate_ok (type : ShaderType) (mesh : Mesh.t) (envelope : Rect) :
  construction_precondition mesh = true ->
  asserts_hold type mesh envelope = true ->
  Populate type mesh envelope = Ok (constructed type mesh envelope).
Proof.
  intros Hpre Hass.
  pose proof (precondition_parts _ Hpre) as (Hv & Hi & H3).
  unfold Populate.
  destruct (Mesh.verts mesh) as [|v0 vs] eqn:Everts; [done|].
  destruct (Mesh.idx mesh) as [|i0 ix] eqn:Eidx; [done|].
  rewrite <- Eidx, <- Everts in *.
  replace (vec_at (Mesh.verts mesh) 0) with (Ok v0)
    by (by rewrite Everts).
  run.
  replace (empty (Mesh.idx mesh)) with false by (by rewrite Eidx).
  replace (empty (Mesh.verts mesh)) with false by (by rewrite Everts).
  rewrite H3. cbn [negb andb Nat.eqb EXPECT mbind result_mbind result_bind].
  unfold asserts_hold in Hass.
  assert (ASSERT (Rect_Contains envelope
                    (Envelope (map Vertex.position (Mesh.verts mesh))))
          = Ok tt) as ->.
  { unfold ASSERT. destruct assert_enabled; [|done].
    cbn in Hass. apply andb_true_iff in Hass as [_ ->]. done. }
  rewrite VertexFormat_ok
    by (destruct assert_enabled; [|done]; cbn in *;
        apply andb_true_iff in Hass as [Hs _];
        by apply negb_true_iff in Hs).
  run.
  unfold constructed.
  replace (nth 0 (Mesh.verts mesh) Vertex.Default) with v0
    by (by rewrite Everts).
  destruct (Z.of_nat (length (Mesh.verts mesh)) <? kMax16).
  - rewrite normalize_unpacked; [done|].
    by rewrite length_map, H3, andb_false_r.
  - rewrite normalize_unpacked; [done|].
    by rewrite H3, andb_false_r.
Qed.

Lemma Validate_constructed (type : ShaderType) (mesh : Mesh.t) (envelope : Rect) :
  (length (Mesh.idx mesh) mod 3 = 0)%nat ->
  Validate (constructed type mesh envelope) = Ok tt.
Proof.
  intros H3. unfold Validate.
  assert (IndexSize (constructed type mesh envelope)
          = length (Mesh.idx mesh)) as ->.
  { unfold IndexSize, constructed. cbn.
    destruct (_ <? _); by rewrite orient_all_length, ?length_map. }
  destruct (_ =? _)%nat; [done|].
  rewrite H3. by apply ASSERT_true.
Qed.

Lemma New_ok (type : ShaderType) (mesh : Mesh.t) (envelope : Rect) :
  construction_precondition mesh = true ->
  asserts_hold type mesh envelope = true ->
  New type mesh envelope = Ok (constructed type mesh envelope).
Proof.
  intros Hpre Hass. unfold New.
  rewrite Populate_ok by done. run.
  rewrite Validate_constructed; [done|].
  by apply precondition_parts.
Qed.
End PackedFacts.

(** ** The packed mesh and the outline builder *)

Section PackedClaims.
Context `{K : Packing}.
Import OptimizedMesh.

Lemma unpack_loop (f : nat -> Vertex.t -> Vertex.t) (d : Vertex.t) (n : nat) :
  forall (filled : list Vertex.t),
    fold_left
      (fun vs i =>
         match vs !! i with
         | Some v => <[i:=f i v]> vs
         | None => vs
         end)
      (seq (length filled) n) (filled ++ replicate n d)
    = filled ++ map (fun i => f i d) (seq (length filled) n).
Proof.
  induction n as [|n IH]; intros filled; [done|].
  cbn [seq fold_left replicate map].
  rewrite list_lookup_middle by done.
  rewrite insert_app_r_alt, Nat.sub_diag by lia. cbn [insert list_insert].
  specialize (IH (filled ++ [f (length filled) d])).
  rewrite length_app, <- app_assoc in IH. cbn in IH.
  replace (length filled + 1)%nat with (S (length filled)) in IH by lia.
  rewrite IH. by rewrite <- app_assoc.
Qed.

(** C1, amended.  Constructing a packed mesh from a raw mesh that meets the
    contract, with indices in range, succeeds; the 16-bit variant is chosen
    exactly when the vertex count is below 65535 ([kMax16], not 65536) and
    the 32-bit variant otherwise; in both cases the stored indices are as
    many as the indices of the source and form the same triangles in the
    same order, each either unchanged or with its second and third index
    exchanged, as the orientation of its packed positions asks. *)
Theorem New_chooses_index_width
    (type : ShaderType) (mesh : Mesh.t) (envelope : Rect) :
  construction_precondition mesh = true ->
  asserts_hold type mesh envelope = true ->
  indices_in_range mesh = true ->
  exists om,
    New type mesh envelope = Ok om /\
    (holds_uint32 (idx_ om) = false
     <-> Z.of_nat (length (Mesh.verts mesh)) < 65535) /\
    length (indices (idx_ om)) = length (Mesh.idx mesh) /\
    triangles (indices (idx_ om))
    = map (oriented (packed_position (verts om))) (triangles (Mesh.idx mesh)).
Proof.
  intros Hpre Hass Hr.
  exists (constructed type mesh envelope).
  split; [by apply New_ok|].
  unfold constructed. cbn [idx_ verts]. unfold kMax16.
  destruct (Z.ltb_spec (Z.of_nat (length (Mesh.verts mesh))) 65535)
    as [Hlt|Hge]; cbn [holds_uint32 indices].
  - assert (map to_uint16 (Mesh.idx mesh) = Mesh.idx mesh) as ->.
    { apply map_id_on. apply all_below_Forall in Hr.
      eapply Forall_impl; [exact Hr|].
      intros k Hk. cbn in Hk. apply to_uint16_small. lia. }
    split; [split; [lia|done]|].
    split; [apply orient_all_length|apply orient_all_triangles].
  - split; [split; [done|lia]|].
    split; [apply orient_all_length|apply orient_all_triangles].
Qed.

(** C2.  On a packed mesh that holds 32-bit indices [Index16] fails with
    [RUNTIME_ERROR] and returns no buffer; on one that holds 16-bit indices
    it returns that buffer. *)
Theorem Index16_by_variant (om : t) :
  match idx_ om with
  | Idx32 _ => Index16 om = Fatal RuntimeError
  | Idx16 v => Index16 om = Ok v
  end.
Proof. unfold Index16. by destruct (idx_ om). Qed.

(** C3, amended.  Given that [Clear] empties a packed vertex list,
    [ClearCpuMemoryVerts] leaves the packed mesh without host-side vertices
    and with an empty 16-bit index buffer, and keeps the shader type, the
    base colour, both colour modifiers, the texture, the transform and the
    bounding rectangle. *)
Theorem ClearCpuMemoryVerts_keeps (om : t) :
  Clear_empties ->
  let om' := ClearCpuMemoryVerts om in
  PackedVertList_size (verts om') = 0%nat /\
  idx_ om' = Idx16 [] /\
  type om' = type om /\
  color om' = color om /\
  mul_color_modifier om' = mul_color_modifier om /\
  add_color_modifier om' = add_color_modifier om /\
  texture om' = texture om /\
  object_matrix om' = object_matrix om /\
  mbr om' = mbr om.
Proof. intros Hclear. cbn. by rewrite Hclear. Qed.

(** C6.  For every raw mesh that meets the contract of the constructor and
    every shader type and envelope that pass its assertions, construction
    succeeds and the stored transform is the object matrix of the source
    times the inverse of the quantization transform computed from the
    envelope and the vertex format of the shader type. *)
Theorem New_object_matrix
    (type : ShaderType) (mesh : Mesh.t) (envelope : Rect) :
  construction_precondition mesh = true ->
  asserts_hold type mesh envelope = true ->
  exists om fmt,
    New type mesh envelope = Ok om /\
    VertexFormat type = Ok fmt /\
    object_matrix om
    = mat4_mul (Mesh.object_matrix mesh)
               (mat4_inverse (CalcTransformForFormat envelope fmt)).
Proof.
  intros Hpre Hass.
  exists (constructed type mesh envelope), (format_of type).
  split; [by apply New_ok|]. split; [|done].
  apply VertexFormat_ok. unfold asserts_hold in Hass.
  destruct assert_enabled; [|done]. cbn in *.
  apply andb_true_iff in Hass as [Hs _]. by apply negb_true_iff in Hs.
Qed.

(** C8.  [ToMesh] returns one vertex per packed vertex: the [i]-th has the
    unpacked position and texture coordinate, and as colour the unpacked
    colour (the stored base colour instead, for [SingleColorShader]) times
    the multiplicative modifier plus the additive modifier, component by
    component.  Its indices are those of the packed variant, so index
    count and triangle count are the same; it carries the stored object
    matrix and a copy of the texture. *)
Theorem ToMesh_unpacks (om : t) :
  let m := ToMesh om in
  Mesh.verts m
  = map (fun i =>
           let u := UnpackVertex (verts om) (Z.of_nat i) Vertex.Default in
           let base := if ShaderType_eqb (type om) SingleColorShader
                       then color om else Vertex.color u in
           Vertex.Make (Vertex.position u)
                       (vec4_add (vec4_mul base (mul_color_modifier om))
                                 (add_color_modifier om))
                       (Vertex.texture_coords u))
        (seq 0 (PackedVertList_size (verts om))) /\
  length (Mesh.verts m) = PackedVertList_size (verts om) /\
  Mesh.idx m = indices (idx_ om) /\
  length (Mesh.idx m) = IndexSize om /\
  length (triangles (Mesh.idx m)) = length (triangles (indices (idx_ om))) /\
  Mesh.object_matrix m = object_matrix om /\
  Mesh.texture m = texture om.
Proof.
  cbn zeta.
  assert (Mesh.verts (ToMesh om)
          = map (fun i => unpack_one om i Vertex.Default)
                (seq 0 (PackedVertList_size (verts om)))) as Hv.
  { unfold ToMesh. cbn [Mesh.verts].
    exact (unpack_loop (unpack_one om) Vertex.Default _ []). }
  assert (Mesh.idx (ToMesh om) = indices (idx_ om)) as Hi.
  { unfold ToMesh. cbn. by destruct (idx_ om). }
  split; [|split; [|split; [|split; [|split; [|split]]]]].
  - rewrite Hv. apply map_ext. intros i. unfold unpack_one.
    by destruct (ShaderType_eqb _ _).
  - by rewrite Hv, length_map, length_seq.
  - done.
  - rewrite Hi. unfold IndexSize. by destruct (idx_ om).
  - by rewrite Hi.
  - done.
  - unfold ToMesh. cbn. by destruct (texture om).
Qed.

(** C10.  The contract of the constructor is a non-empty vertex sequence and
    a non-empty index sequence whose length is a multiple of three.  The
    constructor checks it with two [EXPECT]s in its body, but its member
    initialisers run first and one of them reads the colour of the first
    vertex.  So a broken contract is reported by [EXPECT] only if there is
    a vertex; with no vertex the constructor never reaches an [EXPECT]: it
    reads past the end of an empty vector, which is [Undefined], not the
    contract failure [ExpectFailed].  When the contract is met, [Validate]
    succeeds on whatever the rest of the constructor built, and
    construction as a whole succeeds once the assertions on shader type
    and envelope pass. *)
Theorem New_contract
    (type : ShaderType) (mesh : Mesh.t) (envelope : Rect) :
  (construction_precondition mesh = false ->
   exists e,
     New type mesh envelope = Fatal e /\
     (Mesh.verts mesh <> [] -> e = ExpectFailed) /\
     (Mesh.verts mesh = [] -> e = Undefined))
  /\ (construction_precondition mesh = true ->
      forall om, Populate type mesh envelope = Ok om -> Validate om = Ok tt)
  /\ (construction_precondition mesh = true ->
      asserts_hold type mesh envelope = true ->
      exists om, New type mesh envelope = Ok om).
Proof.
  split; [|split].
  - intros Hpre. unfold New, Populate.
    destruct (Mesh.verts mesh) as [|v0 vs] eqn:Everts.
    { exists Undefined. by repeat split. }
    exists ExpectFailed. split; [|split; [done|intros [=]]].
    unfold construction_precondition in Hpre. rewrite Everts in Hpre.
    cbn [empty negb andb] in Hpre.
    cbn [vec_at lookup list_lookup mbind result_mbind result_bind].
    rewrite Hpre. reflexivity.
  - intros Hpre om Hom.
    pose proof (precondition_parts _ Hpre) as (Hv & Hi & H3).
    unfold Populate in Hom.
    repeat
      match type of Hom with
      | context [mbind _ ?r] =>
          match r with
          | vec_at _ _ => destruct r as [v0|]
          | EXPECT _ => destruct r as [[]|]
          | ASSERT _ => destruct r as [[]|]
          | VertexFormat _ => destruct r as [fmt|]
          end;
          run in Hom; [|done]
      end.
    assert (forall packed l,
              (length l mod 3 = 0)%nat ->
              NormalizeTriangleHelper (unpacked_position packed) l
              = Ok (orient_all (packed_position packed) l)) as Hn.
    { intros packed l Hl. apply normalize_unpacked.
      by rewrite Hl, andb_false_r. }
    assert (IndexSize om = length (Mesh.idx mesh)) as Hsize.
    { destruct (_ <? _).
      - rewrite Hn in Hom by (by rewrite length_map).
        injection Hom as <-. unfold IndexSize. cbn.
        by rewrite orient_all_length, length_map.
      - rewrite Hn in Hom by done.
        injection Hom as <-. unfold IndexSize. cbn.
        by rewrite orient_all_length. }
    unfold Validate. rewrite Hsize, H3.
    destruct (_ =? _)%nat; [done|]. by apply ASSERT_true.
  - intros Hpre Hass. eexists. by apply New_ok.
Qed.
End PackedClaims.

Section BuilderClaims.
Context `{G : Geometry}.
Import FatLine.

(** C9.  [AppendVertex] builds the vertex at [p]; if a callback is set, it
    hands it the last centre, the tip radius, the last extrusion time, the
    stylus pressure and that vertex, and stores at the end of the sequence
    the vertex the callback left; if none is set it stores the vertex as
    built.  A callback that logs its calls has logged, afterwards, exactly
    one more call, with those arguments, made on the state the host had
    before. *)
Theorem AppendVertex_enriches :
  (forall (Host MidPoint TipModel : Type)
          (self : FatLine.t (Host := Host) (MidPoint := MidPoint)
                            (TipModel := TipModel))
          (to : Line) (p : vec2) (bounding_rect : option Rect) (host : Host),
      AppendVertex self to p bounding_rect host
      = let '(v, host') :=
          match on_add_vert_ self with
          | Some on_add_vert =>
              on_add_vert (last_center_ self) (radius (tip_size_ self))
                          (last_extrude_time_ self)
                          (pressure (stylus_state_ self))
                          (Vertex.At p) host
          | None => (Vertex.At p, host)
          end in
        (set_line self to (line self to ++ [v]),
         AssignOrJoinTo (Rect_CreateAtPoint (Vertex.position v)) bounding_rect,
         host'))
  /\ (forall (Host MidPoint TipModel : Type)
             (self : FatLine.t (Host := Host * list Call)
                               (MidPoint := MidPoint) (TipModel := TipModel))
             (f : VertAddFn (Host := Host))
             (to : Line) (p : vec2) (bounding_rect : option Rect)
             (host : Host) (log : list Call),
         on_add_vert_ self = Some (recorded f) ->
         let '(self', _, (host', log')) :=
           AppendVertex self to p bounding_rect (host, log) in
         log' = log ++ [MkCall (last_center_ self) (radius (tip_size_ self))
                               (last_extrude_time_ self)
                               (pressure (stylus_state_ self))
                               (Vertex.At p)]
         /\ (exists v, f (last_center_ self) (radius (tip_size_ self))
                         (last_extrude_time_ self)
                         (pressure (stylus_state_ self))
                         (Vertex.At p) host = (v, host')
                       /\ line self' to = line self to ++ [v])).
Proof.
  split.
  - intros. unfold AppendVertex.
    by destruct (on_add_vert_ self) as [f|]; [destruct (f _ _ _ _ _ _)|].
  - intros Host MidPoint TipModel self f to p br host log Hcb.
    unfold AppendVertex. rewrite Hcb. unfold recorded. cbn [fst snd].
    destruct (f _ _ _ _ _ _) as [v host'] eqn:Hf.
    split; [done|]. exists v. split; [done|]. by destruct to.
Qed.
End BuilderClaims.

(** ** The operations run on the integer grid *)

Section GridRuns.
Import Grid.
#[local] Existing Instance platform.
#[local] Existing Instance geometry.
#[local] Existing Instance packing.

(** The grid satisfies what the statements ask of the headers. *)
Lemma grid_antisymmetric : SignedArea_antisymmetric.
Proof.
  intros a b c. unfold negative_area. cbn. unfold signed_area.
  set (d := (v2x b - v2x a) * (v2y c - v2y a)
            - (v2y b - v2y a) * (v2x c - v2x a)).
  replace ((v2x c - v2x a) * (v2y b - v2y a)
           - (v2y c - v2y a) * (v2x b - v2x a)) with (- d) by (unfold d; ring).
  intros Hneg%Z.ltb_lt. apply Z.ltb_ge.
  assert (d < 0) by (destruct (Z.lt_ge_cases d 0) as [|Hd]; [done|];
                     pose proof (Z.div_pos d 2 Hd); lia).
  apply Z.div_pos; lia.
Qed.

Lemma grid_clear_empties : Clear_empties.
Proof. intros pv. reflexivity. Qed.

(** Small runs of the raw mesh operations. *)
Example Normalize_square :
  Mesh.idx <$> Mesh.NormalizeTriangleOrientation square
  = Ok [0; 1; 2; 0; 2; 3].
Proof. reflexivity. Qed.

Example Deindex_square :
  (fun m => (map Vertex.position (Mesh.verts m), Mesh.idx m))
    <$> Mesh.Deindex square
  = Ok ([Vec2 5 5; Vec2 15 5; Vec2 15 15; Vec2 5 5; Vec2 5 15; Vec2 15 15], []).
Proof. reflexivity. Qed.

Example Append_doubled_into_square :
  (fun m => (map Vertex.position (Mesh.verts m), Mesh.idx m,
             Mesh.object_matrix m))
    <$> Mesh.Append square doubled
  = Ok ([Vec2 5 5; Vec2 15 5; Vec2 15 15; Vec2 5 15;
         Vec2 2 2; Vec2 4 2; Vec2 2 4],
        [0; 1; 2; 0; 3; 2; 4; 5; 6], identity).
Proof. reflexivity. Qed.

(** Small runs of the packed mesh. *)
Example New_square_indices :
  OptimizedMesh.idx_ <$> OptimizedMesh.NewFromMesh ColoredVertShader square
  = Ok (OptimizedMesh.Idx16 [0; 1; 2; 0; 2; 3]).
Proof. reflexivity. Qed.

Example New_square_round_trip :
  (fun om => map Vertex.position (Mesh.verts (OptimizedMesh.ToMesh om)))
    <$> OptimizedMesh.NewFromMesh ColoredVertShader square
  = Ok [Vec2 0 0; Vec2 10 0; Vec2 10 10; Vec2 0 10].
Proof. reflexivity. Qed.

Example New_square_world_bounds :
  OptimizedMesh.WorldBounds
    <$> OptimizedMesh.NewFromMesh ColoredVertShader square
  = Ok (MkRect 5 5 15 15).
Proof. reflexivity. Qed.

Example Index16_crowd :
  OptimizedMesh.NewFromMesh ColoredVertShader crowd
    ≫= OptimizedMesh.Index16
  = Fatal RuntimeError.
Proof. vm_compute. reflexivity. Qed.

Example New_without_vertices :
  OptimizedMesh.NewFromMesh ColoredVertShader Mesh.Default = Fatal Undefined.
Proof. reflexivity. Qed.

(** *** C1 *)

(** With exactly 65535 vertices, fewer than 65536, the constructor takes
    the 32-bit variant. *)
Lemma New_crowd_uses_uint32 :
  Z.of_nat (length (Mesh.verts crowd)) = 65535 /\
  Z.of_nat (length (Mesh.verts crowd)) < 65536 /\
  (fun om => OptimizedMesh.holds_uint32 (OptimizedMesh.idx_ om))
    <$> OptimizedMesh.New ColoredVertShader crowd crowd_envelope
  = Ok true.
Proof.
  split; [vm_compute; reflexivity|].
  split; [vm_compute; reflexivity|].
  vm_compute. reflexivity.
Qed.

Lemma New_chooses_index_width_square :
  construction_precondition square = true /\
  asserts_hold ColoredVertShader square square_envelope = true /\
  indices_in_range square = true /\
  exists om,
    OptimizedMesh.New ColoredVertShader square square_envelope = Ok om /\
    OptimizedMesh.holds_uint32 (OptimizedMesh.idx_ om) = false /\
    length (OptimizedMesh.indices (OptimizedMesh.idx_ om)) = 6%nat.
Proof.
  assert (construction_precondition square = true) as H1 by reflexivity.
  assert (asserts_hold ColoredVertShader square square_envelope = true)
    as H2 by reflexivity.
  assert (indices_in_range square = true) as H3 by reflexivity.
  destruct (New_chooses_index_width ColoredVertShader square square_envelope
              H1 H2 H3) as (om & Hnew & Hwidth & Hlen & _).
  split; [exact H1|]. split; [exact H2|]. split; [exact H3|].
  exists om. split; [exact Hnew|]. split; [|exact Hlen].
  apply Hwidth. reflexivity.
Defined.

(** *** C3 *)

(** Clearing a packed square leaves no index behind, and clearing a mesh
    with 32-bit indices leaves the 16-bit variant. *)
Lemma ClearCpuMemoryVerts_drops_indices :
  (exists om,
     OptimizedMesh.New ColoredVertShader square square_envelope = Ok om /\
     OptimizedMesh.idx_ om = OptimizedMesh.Idx16 [0; 1; 2; 0; 2; 3] /\
     OptimizedMesh.idx_ (OptimizedMesh.ClearCpuMemoryVerts om)
     = OptimizedMesh.Idx16 [] /\
     OptimizedMesh.idx_ (OptimizedMesh.ClearCpuMemoryVerts om)
     <> OptimizedMesh.idx_ om /\
     OptimizedMesh.IndexSize (OptimizedMesh.ClearCpuMemoryVerts om)
     <> OptimizedMesh.IndexSize om)
  /\ (fun om =>
        (OptimizedMesh.holds_uint32 (OptimizedMesh.idx_ om),
         OptimizedMesh.holds_uint32
           (OptimizedMesh.idx_ (OptimizedMesh.ClearCpuMemoryVerts om))))
       <$> OptimizedMesh.New ColoredVertShader crowd crowd_envelope
     = Ok (true, false).
Proof.
  split.
  - exists (constructed ColoredVertShader square square_envelope).
    split; [apply New_ok; reflexivity|].
    split; [reflexivity|]. split; [reflexivity|].
    split; vm_compute; intros [=].
  - vm_compute. reflexivity.
Qed.

Lemma ClearCpuMemoryVerts_keeps_square :
  Clear_empties /\
  let om := constructed ColoredVertShader square square_envelope in
  let om' := OptimizedMesh.ClearCpuMemoryVerts om in
  PackedVertList_size (OptimizedMesh.verts om') = 0%nat /\
  OptimizedMesh.idx_ om' = OptimizedMesh.Idx16 [] /\
  OptimizedMesh.type om' = OptimizedMesh.type om /\
  OptimizedMesh.color om' = OptimizedMesh.color om /\
  OptimizedMesh.mul_color_modifier om' = OptimizedMesh.mul_color_modifier om /\
  OptimizedMesh.add_color_modifier om' = OptimizedMesh.add_color_modifier om /\
  OptimizedMesh.texture om' = OptimizedMesh.texture om /\
  OptimizedMesh.object_matrix om' = OptimizedMesh.object_matrix om /\
  OptimizedMesh.mbr om' = OptimizedMesh.mbr om.
Proof.
  split; [exact grid_clear_empties|].
  exact (ClearCpuMemoryVerts_keeps
           (constructed ColoredVertShader square square_envelope)
           grid_clear_empties).
Defined.

(** *** C4 *)

Lemma Append_concatenates_doubled :
  Mesh.append_arity square doubled = true /\
  offsets_fit (length (Mesh.verts square)) (Mesh.idx doubled) = true /\
  exists m,
    Mesh.Append square doubled = Ok m /\
    map Vertex.position (Mesh.verts m)
    = map Vertex.position (Mesh.verts square) ++ [Vec2 2 2; Vec2 4 2; Vec2 2 4] /\
    Mesh.idx m = Mesh.idx square ++ [4; 5; 6] /\
    Mesh.object_matrix m = Mesh.object_matrix square.
Proof.
  assert (Mesh.append_arity square doubled = true) as H1 by reflexivity.
  assert (offsets_fit (length (Mesh.verts square)) (Mesh.idx doubled) = true)
    as H2 by reflexivity.
  split; [exact H1|]. split; [exact H2|].
  eexists. split; [exact (Append_concatenates square doubled H1 H2)|].
  repeat split; reflexivity.
Defined.

(** *** C5 *)

Lemma NormalizeTriangleOrientation_orients_square :
  SignedArea_antisymmetric /\
  (length (Mesh.idx square) mod 3 = 0)%nat /\
  indices_in_range square = true /\
  exists m',
    Mesh.NormalizeTriangleOrientation square = Ok m' /\
    length (Mesh.idx m') = 6%nat /\
    Mesh.NormalizeTriangleOrientation m' = Ok m'.
Proof.
  assert ((length (Mesh.idx square) mod 3 = 0)%nat) as H2 by reflexivity.
  assert (indices_in_range square = true) as H3 by reflexivity.
  destruct (NormalizeTriangleOrientation_orients square
              grid_antisymmetric H2 H3)
    as (m' & Hrun & _ & Hlen & _ & _ & Hagain).
  split; [exact grid_antisymmetric|]. split; [exact H2|]. split; [exact H3|].
  exists m'. split; [exact Hrun|]. split; [exact Hlen|exact Hagain].
Defined.

(** *** C6 *)

Lemma New_object_matrix_square :
  construction_precondition square = true /\
  asserts_hold ColoredVertShader square square_envelope = true /\
  exists om,
    OptimizedMesh.New ColoredVertShader square square_envelope = Ok om /\
    OptimizedMesh.object_matrix om
    = compose (Mesh.object_matrix square)
              (inverse (translate (- lo_x square_envelope)
                                  (- lo_y square_envelope))).
Proof.
  assert (construction_precondition square = true) as H1 by reflexivity.
  assert (asserts_hold ColoredVertShader square square_envelope = true)
    as H2 by reflexivity.
  destruct (New_object_matrix ColoredVertShader square square_envelope H1 H2)
    as (om & fmt & Hnew & _ & Hmatrix).
  split; [exact H1|]. split; [exact H2|].
  exists om. split; [exact Hnew|exact Hmatrix].
Defined.

(** *** C7 *)

Lemma Deindex_GenIndex_square :
  Mesh.idx square <> [] /\
  indices_in_range square = true /\
  Mesh.idx loose = [] /\
  (exists m',
     Mesh.Deindex square = Ok m' /\
     length (Mesh.verts m') = 6%nat /\
     Mesh.idx m' = [] /\
     Mesh.idx (Mesh.GenIndex m') = [0; 1; 2; 3; 4; 5] /\
     triangles (index_positions (Mesh.GenIndex m'))
     = triangles (index_positions square)) /\
  Mesh.Deindex loose = Ok loose /\
  Mesh.idx (Mesh.GenIndex loose) = [0; 1; 2].
Proof.
  assert (Mesh.idx square <> []) as H1 by (intros [=]).
  assert (indices_in_range square = true) as H2 by reflexivity.
  assert (Mesh.idx loose = []) as H3 by reflexivity.
  destruct (Deindex_GenIndex square) as (Hindexed & _ & Hregen & _).
  destruct (Deindex_GenIndex loose) as (_ & Hnoop & _ & Hfresh).
  destruct (Hindexed H1 H2) as (m' & Hrun & Hlen & _ & Hidx & _).
  destruct (Hregen H1 H2) as (m'' & Hrun' & Hgen & _ & _ & Hsame).
  split; [exact H1|]. split; [exact H2|]. split; [exact H3|]. split.
  - exists m'. split; [exact Hrun|]. split; [exact Hlen|].
    split; [exact Hidx|].
    rewrite Hrun in Hrun'. injection Hrun' as ->.
    split; [exact Hgen|exact Hsame].
  - split; [exact (Hnoop H3)|exact (proj1 (Hfresh H3))].
Defined.

(** *** C9 *)

Lemma AppendVertex_enriches_builder :
  let self := builder (Some (recorded paint_and_count)) in
  FatLine.on_add_vert_ self = Some (recorded paint_and_count) /\
  let '(self', _, (calls, log)) :=
    FatLine.AppendVertex self FatLine.Fwd (Vec2 7 7) None (0%nat, []) in
  log = [MkCall (Vec2 4 4) 30 12 9 (Vertex.At (Vec2 7 7))] /\
  exists v,
    paint_and_count (Vec2 4 4) 30 12 9 (Vertex.At (Vec2 7 7)) 0%nat
    = (v, calls) /\
    FatLine.line self' FatLine.Fwd = [vertex 0 0 red] ++ [v].
Proof.
  split; [reflexivity|].
  exact (proj2 AppendVertex_enriches nat vec2 unit
           (builder (Some (recorded paint_and_count))) paint_and_count
           FatLine.Fwd (Vec2 7 7) None 0%nat [] eq_refl).
Defined.

Example AppendVertex_counts_one_call :
  let '(self', bounds, (calls, _)) :=
    FatLine.AppendVertex (builder (Some (recorded paint_and_count)))
                         FatLine.Back (Vec2 7 7) None (0%nat, []) in
  calls = 1%nat /\
  FatLine.BackwardLine self' = [vertex 7 7 blue] /\
  FatLine.ForwardLine self' = [vertex 0 0 red] /\
  bounds = Some (MkRect 7 7 7 7).
Proof. repeat split. Qed.

Example AppendVertex_without_callback :
  FatLine.AppendVertex (builder None) FatLine.EndCap (Vec2 7 7)
                       (Some (MkRect 0 0 1 1)) (0%nat, [])
  = (FatLine.set_line (builder None) FatLine.EndCap [Vertex.At (Vec2 7 7)],
     Some (MkRect 0 0 7 7), (0%nat, [])).
Proof. reflexivity. Qed.

(** *** C10 *)

Lemma New_contract_square_and_ragged :
  construction_precondition ragged = false /\
  construction_precondition square = true /\
  asserts_hold ColoredVertShader square square_envelope = true /\
  OptimizedMesh.New ColoredVertShader ragged square_envelope
  = Fatal ExpectFailed /\
  (forall om,
     OptimizedMesh.Populate ColoredVertShader square square_envelope = Ok om ->
     OptimizedMesh.Validate om = Ok tt) /\
  exists om, OptimizedMesh.New ColoredVertShader square square_envelope = Ok om.
Proof.
  assert (construction_precondition ragged = false) as H0 by reflexivity.
  assert (construction_precondition square = true) as H1 by reflexivity.
  assert (asserts_hold ColoredVertShader square square_envelope = true)
    as H2 by reflexivity.
  destruct (New_contract ColoredVertShader ragged square_envelope)
    as (Hfail & _ & _).
  destruct (New_contract ColoredVertShader square square_envelope)
    as (_ & Hvalid & Hok).
  split; [exact H0|]. split; [exact H1|]. split; [exact H2|].
  split; [|split; [exact (Hvalid H1)|exact (Hok H1 H2)]].
  destruct (Hfail H0) as (e & Hnew & He & _).
  rewrite Hnew. f_equal. apply He. intros [=].
Defined.

(** On the mesh with one index triple and no vertex the only part of the
    contract that is broken is the one on the vertices, and the
    constructor does not report it through [EXPECT]: it fails before, on
    the read of the first vertex. *)
Lemma New_hollow_skips_EXPECT :
  Mesh.verts hollow = [] /\
  Mesh.idx hollow = [0; 1; 2] /\
  construction_precondition hollow = false /\
  OptimizedMesh.New ColoredVertShader hollow square_envelope
  = Fatal Undefined /\
  OptimizedMesh.New ColoredVertShader hollow square_envelope
  <> Fatal ExpectFailed.
Proof.
  split; [reflexivity|]. split; [reflexivity|]. split; [reflexivity|].
  split; [reflexivity|]. intros [=].
Qed.
End GridRuns.

(** * Further properties *)

(** ** Shared lemmas *)

Section MoreLoopFacts.
Context `{G : Geometry}.

(** A property kept by every successful iteration is kept by the loop. *)
Lemma for_range_invariant {S} (Q : S -> Prop) (body : S -> nat -> result S) :
  (forall s i s', Q s -> body s i = Ok s' -> Q s') ->
  forall count start s s',
    Q s -> for_range body start count s = Ok s' -> Q s'.
Proof.
  intros Hbody. induction count as [|count IH]; intros start s s' Hs Hrun.
  - cbn in Hrun. by injection Hrun as <-.
  - cbn [for_range] in Hrun.
    destruct (body s start) as [s1|] eqn:Hstep; run in Hrun; [|done].
    eapply IH; [|exact Hrun]. by eapply Hbody.
Qed.

Lemma are_uint32_Forall (l : list Z) :
  are_uint32 l = true <-> Forall (fun k => 0 <= k < 2 ^ 32) l.
Proof.
  unfold are_uint32. rewrite forallb_forall, Forall_forall.
  split; intros H k Hk.
  - apply list_elem_of_In, H in Hk. lia.
  - apply list_elem_of_In, H in Hk. lia.
Qed.

Lemma all_below_false (n : nat) (l : list Z) :
  are_uint32 l = true ->
  all_below n l = false ->
  Exists (fun k => Z.of_nat n <= k) l.
Proof.
  intros Hu Hb. apply are_uint32_Forall in Hu.
  induction l as [|k l IH]; [done|].
  apply Forall_cons in Hu as [Hk Hu].
  cbn in Hb. apply andb_false_iff in Hb as [Hb|Hb].
  - left. apply andb_false_iff in Hb as [Hb|Hb]; lia.
  - right. by apply IH.
Qed.

Lemma vec_at_beyond (vs : list Vertex.t) (k : Z) :
  Z.of_nat (length vs) <= k -> vec_at vs (Z.to_nat k) = Fatal Undefined.
Proof.
  intros Hk. unfold vec_at. rewrite lookup_ge_None_2; [done|]. lia.
Qed.

(** What [Append] returns when its assertion lets it through. *)
Lemma Append_value (A B : Mesh.t) :
  Mesh.Append A B =
    (ASSERT (Mesh.append_arity A B);;
     Ok (Mesh.Make
           (Mesh.verts A ++ map (moved_into A B) (Mesh.verts B))
           (Mesh.idx A ++
            map (fun i => to_uint32 (i + Z.of_nat (length (Mesh.verts A))))
                (Mesh.idx B))
           (Mesh.texture A) (Mesh.object_matrix A) (Mesh.shader_metadata A))).
Proof.
  unfold Mesh.Append. destruct (ASSERT _) as [[]|]; [|done]. run.
  unfold Mesh.set_idx, Mesh.set_verts. cbn.
  by rewrite !fold_left_snoc.
Qed.

Lemma empty_nil {A} (l : list A) : empty l = true -> l = [].
Proof. by destruct l. Qed.

Lemma ASSERT_outcome (c : bool) :
  ASSERT c = if assert_enabled && negb c then Fatal AssertFailed else Ok tt.
Proof. reflexivity. Qed.
End MoreLoopFacts.

(** ** [Append] and [Deindex] *)

Section MeshExtras.
Context `{G : Geometry}.


(** X2.  Appending three meshes gives the same index sequence and the same
    vertex count whether the first two or the last two are appended first,
    wrap-around of [uint32_t] included. *)
Theorem Append_indices_regroup (A B C AB BC ABC ABC' : Mesh.t) :
  Mesh.Append A B = Ok AB ->
  Mesh.Append AB C = Ok ABC ->
  Mesh.Append B C = Ok BC ->
  Mesh.Append A BC = Ok ABC' ->
  Mesh.idx ABC = Mesh.idx ABC' /\
  length (Mesh.verts ABC) = length (Mesh.verts ABC').
Proof.
  rewrite !Append_value. intros HAB HABC HBC HABC'.
  destruct (ASSERT (Mesh.append_arity A B)) as [[]|]; run in HAB; [|done].
  injection HAB as <-.
  destruct (ASSERT (Mesh.append_arity B C)) as [[]|]; run in HBC; [|done].
  injection HBC as <-.
  destruct (ASSERT _) as [[]|]; run in HABC; [|done]. injection HABC as <-.
  destruct (ASSERT _) as [[]|]; run in HABC'; [|done]. injection HABC' as <-.
  cbn [Mesh.verts Mesh.idx]. split.
  - rewrite map_app, map_map, app_assoc. f_equal.
    apply map_ext. intros c. rewrite length_app, length_map.
    unfold to_uint32. rewrite Zplus_mod_idemp_l. f_equal. lia.
  - repeat (rewrite length_app || rewrite length_map). lia.
Qed.

(** X3.  Appending a mesh without vertices and without indices returns the
    receiver as it is, in every build. *)
Theorem Append_nothing (A B : Mesh.t) :
  Mesh.verts B = [] -> Mesh.idx B = [] -> Mesh.Append A B = Ok A.
Proof.
  intros Hv Hi. rewrite Append_value.
  rewrite ASSERT_true by (unfold Mesh.append_arity; by rewrite Hv).
  run. rewrite Hv, Hi. cbn. rewrite !app_nil_r. by destruct A.
Qed.

(** X4.  After [Clear], [Append] rebuilds the receiver from [other] alone: the
    vertices of [other] moved into the space of the receiver, the indices
    of [other] as they are, and the texture, transform and shader metadata
    that [Clear] left in place. *)
Theorem Clear_then_Append (A B : Mesh.t) :
  are_uint32 (Mesh.idx B) = true ->
  Mesh.Append (Mesh.Clear A) B
  = Ok (Mesh.Make (map (moved_into A B) (Mesh.verts B)) (Mesh.idx B)
                  (Mesh.texture A) (Mesh.object_matrix A)
                  (Mesh.shader_metadata A)).
Proof.
  intros Hu. rewrite Append_value.
  rewrite ASSERT_true
    by (unfold Mesh.append_arity; cbn; by rewrite orb_true_r).
  run. cbn. do 2 f_equal.
  apply map_id_on. apply are_uint32_Forall in Hu.
  eapply Forall_impl; [exact Hu|]. intros k Hk. cbn in *.
  rewrite Z.add_0_r. by apply to_uint32_small.
Qed.

(** X5.  [Append] fails exactly when [ASSERT] is compiled in and one of two
    non-empty meshes is indexed while the other is not, and it has no other
    failure. *)
Theorem Append_fails_only_by_ASSERT (A B : Mesh.t) :
  (Mesh.Append A B = Fatal AssertFailed
   <-> assert_enabled = true /\ Mesh.append_arity A B = false)
  /\ (forall e, Mesh.Append A B = Fatal e -> e = AssertFailed).
Proof.
  rewrite Append_value, ASSERT_outcome.
  destruct assert_enabled, (Mesh.append_arity A B); cbn;
    (split; [split; [try done; by intros [=]|try done; by intros [[=] [=]]]
            |by intros e [=]]).
Qed.

(** The loop of [Deindex] stops at the first index that is no vertex. *)
Lemma Deindex_loop_fails (vs : list Vertex.t) (ix : list Z) :
  Forall (fun k => 0 <= k) ix ->
  forall (count start : nat) (s : list Vertex.t),
    (start + count = length ix)%nat ->
    Exists (fun k => Z.of_nat (length vs) <= k) (drop start ix) ->
    for_range
      (fun (new_verts : list Vertex.t) i =>
         k ← vec_at ix i;
         v ← vec_at vs (Z.to_nat k);
         Ok (<[i:=v]> new_verts))
      start count s
    = Fatal Undefined.
Proof.
  intros Hpos. induction count as [|count IH]; intros start s Hlen Hex.
  - rewrite drop_ge in Hex by lia. by apply Exists_nil in Hex.
  - cbn [for_range].
    destruct (lookup_lt_is_Some_2 ix start) as [k Hk]; [lia|].
    rewrite (vec_at_Some _ _ _ Hk). run.
    rewrite (drop_S _ _ _ Hk) in Hex.
    destruct (Z_lt_le_dec k (Z.of_nat (length vs))) as [Hin|Hout].
    + assert (0 <= k) as H0.
      { rewrite Forall_forall in Hpos.
        eapply Hpos, list_elem_of_lookup_2, Hk. }
      rewrite vec_at_in_range by lia. run.
      apply IH; [lia|].
      apply Exists_cons in Hex as [Hbad|Hex]; [lia|done].
    + by rewrite vec_at_beyond.
Qed.

(** X6.  On an indexed mesh [Deindex] succeeds when every index is the index
    of a vertex and otherwise reads outside the vertices. *)
Theorem Deindex_bounds (m : Mesh.t) :
  Mesh.idx m <> [] ->
  are_uint32 (Mesh.idx m) = true ->
  (indices_in_range m = true -> exists m', Mesh.Deindex m = Ok m')
  /\ (indices_in_range m = false -> Mesh.Deindex m = Fatal Undefined).
Proof.
  intros Hne Hu. split.
  - intros Hr. eexists. by apply Deindex_indexed.
  - intros Hr. unfold Mesh.Deindex.
    apply empty_false in Hne. rewrite Hne.
    rewrite (Deindex_loop_fails (Mesh.verts m) (Mesh.idx m)); [done| |done|].
    + apply are_uint32_Forall in Hu.
      eapply Forall_impl; [exact Hu|]. intros k Hk. cbn in Hk. lia.
    + rewrite drop_0. by apply all_below_false.
Qed.

(** X7.  A mesh that [Deindex] returns has no index, keeps texture, transform
    and metadata, has as many vertices as the indexed mesh had indices, and
    is left as it is by a second [Deindex]. *)
Theorem Deindex_settles (m m' : Mesh.t) :
  Mesh.Deindex m = Ok m' ->
  Mesh.idx m' = [] /\
  Mesh.Deindex m' = Ok m' /\
  (Mesh.idx m <> [] -> length (Mesh.verts m') = length (Mesh.idx m)) /\
  Mesh.texture m' = Mesh.texture m /\
  Mesh.object_matrix m' = Mesh.object_matrix m /\
  Mesh.shader_metadata m' = Mesh.shader_metadata m.
Proof.
  unfold Mesh.Deindex at 1. intros Hrun.
  destruct (empty (Mesh.idx m)) eqn:Hempty.
  - injection Hrun as <-. apply empty_nil in Hempty.
    repeat split; try done.
    unfold Mesh.Deindex. by rewrite Hempty.
  - destruct (for_range _ _ _ _) as [nv|] eqn:Hloop; run in Hrun; [|done].
    injection Hrun as <-. cbn. repeat split; try done.
    intros _. revert Hloop.
    apply (for_range_invariant
             (fun s : list Vertex.t => length s = length (Mesh.idx m))).
    + intros s i s' Hs Hbody.
      destruct (vec_at (Mesh.idx m) i) as [k|]; run in Hbody; [|done].
      destruct (vec_at (Mesh.verts m) _) as [v|]; run in Hbody; [|done].
      injection Hbody as <-. by rewrite length_insert.
    + apply length_replicate.
Qed.
End MeshExtras.

(** ** [GenIndex] and [NormalizeTriangleOrientation] *)

Section MeshExtras2.
Context `{G : Geometry}.

Lemma GenIndex_in_range (m : Mesh.t) : indices_in_range (Mesh.GenIndex m) = true.
Proof.
  unfold indices_in_range. rewrite GenIndex_idx.
  apply all_below_Forall, Forall_map, Forall_forall.
  intros k Hk%elem_of_seq. cbn. unfold Mesh.GenIndex. cbn. lia.
Qed.

(** X8.  [GenIndex] gives one index per vertex, all in range and all distinct,
    whatever indices the mesh had before; it keeps the vertices, and a
    second [GenIndex] changes nothing. *)
Theorem GenIndex_fresh (m : Mesh.t) :
  indices_in_range (Mesh.GenIndex m) = true /\
  length (Mesh.idx (Mesh.GenIndex m)) = length (Mesh.verts m) /\
  NoDup (Mesh.idx (Mesh.GenIndex m)) /\
  (forall ix, Mesh.GenIndex (Mesh.set_idx m ix) = Mesh.GenIndex m) /\
  Mesh.GenIndex (Mesh.GenIndex m) = Mesh.GenIndex m /\
  Mesh.verts (Mesh.GenIndex m) = Mesh.verts m.
Proof.
  assert (forall m', Mesh.GenIndex m'
                     = Mesh.set_idx m'
                         (map Z.of_nat (seq 0 (length (Mesh.verts m')))))
    as Hgen.
  { intros m'. pose proof (GenIndex_idx m') as H.
    unfold Mesh.GenIndex in *. cbn in H. by rewrite H. }
  split; [apply GenIndex_in_range|].
  split; [by rewrite GenIndex_idx, length_map, length_seq|].
  split; [|split; [|split]].
  - rewrite GenIndex_idx. apply NoDup_fmap_2; [|apply NoDup_seq].
    intros a b. apply Nat2Z.inj.
  - intros ix. by rewrite !Hgen.
  - by rewrite !Hgen.
  - done.
Qed.

(** X9.  [GenIndex] followed by [Deindex] gives back the vertices, without
    indices. *)
Theorem GenIndex_then_Deindex (m : Mesh.t) :
  Mesh.Deindex (Mesh.GenIndex m) = Ok (Mesh.set_idx m []).
Proof.
  destruct (Mesh.verts m) as [|v vs] eqn:Hverts.
  - unfold Mesh.Deindex. rewrite GenIndex_idx, Hverts. cbn.
    unfold Mesh.GenIndex. rewrite Hverts. reflexivity.
  - rewrite Deindex_indexed.
    + rewrite GenIndex_idx. cbn [Mesh.verts Mesh.GenIndex Mesh.set_idx
        Mesh.texture Mesh.object_matrix Mesh.shader_metadata].
      unfold Mesh.set_idx. do 2 f_equal.
      rewrite map_map.
      etransitivity; [|apply (map_nth_seq Vertex.Default)].
      apply map_ext. intros i. by rewrite Nat2Z.id.
    + rewrite GenIndex_idx, Hverts. done.
    + apply GenIndex_in_range.
Qed.

(** What [NormalizeTriangleOrientation] returns on indices in range, once
    its assertion lets it through. *)
Lemma NormalizeTriangleOrientation_value (m : Mesh.t) :
  indices_in_range m = true ->
  assert_enabled && negb (length (Mesh.idx m) mod 3 =? 0)%nat = false ->
  Mesh.NormalizeTriangleOrientation m
  = Ok (Mesh.set_idx m
          (orient_all (position_at (Mesh.verts m)) (Mesh.idx m))).
Proof.
  intros Hr Hassert. unfold Mesh.NormalizeTriangleOrientation.
  rewrite NormalizeTriangleHelper_triples, ASSERT_outcome, Hassert. run.
  rewrite (normalize_triples_total (position_at (Mesh.verts m))); [done|].
  apply all_below_Forall in Hr.
  eapply Forall_impl; [exact Hr|].
  intros k Hk. by apply position_getter_in_range.
Qed.

Lemma orient_all_oriented (pos : Z -> vec2) (l : list Z) :
  Forall (fun t => negative_triangle pos t = false) (triangles l) ->
  orient_all pos l = l.
Proof.
  induction l as [|a|a b|a b c rest IH] using triples_ind; try done.
  cbn. intros Hl. apply Forall_cons in Hl as [Ht Hl].
  cbn in Ht. by rewrite Ht, IH.
Qed.

Lemma orient_all_tail (pos : Z -> vec2) (l : list Z) :
  drop (3 * length (triangles l)) (orient_all pos l)
  = drop (3 * length (triangles l)) l.
Proof.
  induction l as [|a|a b|a b c rest IH] using triples_ind; try done.
  cbn [triangles length orient_all].
  replace (3 * S (length (triangles rest)))%nat
    with (S (S (S (3 * length (triangles rest))))) by lia.
  destruct (negative_area _ _ _); cbn [drop]; exact IH.
Qed.

Lemma triangles_length {A} (l : list A) :
  length (triangles l) = (length l / 3)%nat.
Proof.
  induction l as [|a|a b|a b c rest IH] using triples_ind; try done.
  rewrite div3_cons3. cbn. by rewrite IH.
Qed.

(** A triple-by-triple run stops at the first index that is no vertex. *)
Lemma normalize_triples_fails (m : Mesh.t) (l : list Z) :
  (length l mod 3 = 0)%nat ->
  Forall (fun k => 0 <= k) l ->
  Exists (fun k => Z.of_nat (length (Mesh.verts m)) <= k) l ->
  normalize_triples (Mesh.position_getter m) l = Fatal Undefined.
Proof.
  induction l as [|a|a b|a b c rest IH] using triples_ind;
    intros H3 Hpos Hex; try done.
  - by apply Exists_nil in Hex.
  - assert ((length rest mod 3 = 0)%nat) as H3'.
    { cbn [length] in H3.
      replace (S (S (S (length rest)))) with (length rest + 1 * 3)%nat in H3
        by lia.
      by rewrite Nat.Div0.mod_add in H3. }
    apply Forall_cons in Hpos as [Ha Hpos].
    apply Forall_cons in Hpos as [Hb Hpos].
    apply Forall_cons in Hpos as [Hc Hpos].
    assert (forall k, 0 <= k ->
              Mesh.position_getter m k = Fatal Undefined
              \/ (k < Z.of_nat (length (Mesh.verts m))
                  /\ exists p, Mesh.position_getter m k = Ok p)) as Hget.
    { intros k Hk.
      destruct (Z_lt_le_dec k (Z.of_nat (length (Mesh.verts m)))) as [Hin|Hout].
      - right. split; [done|]. eexists. apply position_getter_in_range. lia.
      - left. unfold Mesh.position_getter. by rewrite vec_at_beyond. }
    cbn [normalize_triples].
    destruct (Hget a Ha) as [->|[Ha' [pa ->]]]; [done|]. run.
    destruct (Hget b Hb) as [->|[Hb' [pb ->]]]; [done|]. run.
    destruct (Hget c Hc) as [->|[Hc' [pc ->]]]; [done|]. run.
    rewrite IH; [done|done|done|].
    apply Exists_cons in Hex as [?|Hex]; [lia|].
    apply Exists_cons in Hex as [?|Hex]; [lia|].
    apply Exists_cons in Hex as [?|Hex]; [lia|done].
Qed.

(** X10.  [NormalizeTriangleOrientation] only permutes the indices: they stay
    in range and a multiple of three, and texture, transform and metadata
    stay. *)
Theorem Normalize_keeps_invariant (m : Mesh.t) :
  (length (Mesh.idx m) mod 3 = 0)%nat ->
  indices_in_range m = true ->
  exists m',
    Mesh.NormalizeTriangleOrientation m = Ok m' /\
    Mesh.idx m' ≡ₚ Mesh.idx m /\
    indices_in_range m' = true /\
    (length (Mesh.idx m') mod 3 = 0)%nat /\
    Mesh.texture m' = Mesh.texture m /\
    Mesh.object_matrix m' = Mesh.object_matrix m /\
    Mesh.shader_metadata m' = Mesh.shader_metadata m.
Proof.
  intros H3 Hr. eexists. split.
  - apply NormalizeTriangleOrientation_value; [done|].
    by rewrite H3, andb_false_r.
  - cbn. split; [apply orient_all_Permutation|].
    split; [|split; [by rewrite orient_all_length|done]].
    unfold indices_in_range in *. cbn.
    apply all_below_Forall, orient_all_Forall. by apply all_below_Forall.
Qed.

(** X11.  A mesh none of whose triangles has negative signed area is returned
    unchanged by [NormalizeTriangleOrientation]. *)
Theorem Normalize_oriented_unchanged (m : Mesh.t) :
  (length (Mesh.idx m) mod 3 = 0)%nat ->
  indices_in_range m = true ->
  Forall (fun t => negative_triangle (position_at (Mesh.verts m)) t = false)
         (triangles (Mesh.idx m)) ->
  Mesh.NormalizeTriangleOrientation m = Ok m.
Proof.
  intros H3 Hr Hpos.
  rewrite NormalizeTriangleOrientation_value; [|done|by rewrite H3, andb_false_r].
  rewrite orient_all_oriented by done. by destruct m.
Qed.

(** X12.  [NormalizeTriangleOrientation] fails on its [ASSERT], before any
    vertex is read, when the index count is no multiple of three in a
    build that checks it; with a multiple of three it reads outside the
    vertices as soon as one index is out of range. *)
Theorem Normalize_failures (m : Mesh.t) :
  (assert_enabled = true ->
   (length (Mesh.idx m) mod 3 <> 0)%nat ->
   Mesh.NormalizeTriangleOrientation m = Fatal AssertFailed)
  /\ ((length (Mesh.idx m) mod 3 = 0)%nat ->
      are_uint32 (Mesh.idx m) = true ->
      indices_in_range m = false ->
      Mesh.NormalizeTriangleOrientation m = Fatal Undefined).
Proof.
  split.
  - intros Hon H3. unfold Mesh.NormalizeTriangleOrientation.
    rewrite NormalizeTriangleHelper_triples, ASSERT_outcome, Hon.
    apply Nat.eqb_neq in H3. by rewrite H3.
  - intros H3 Hu Hr. unfold Mesh.NormalizeTriangleOrientation.
    rewrite NormalizeTriangleHelper_triples, ASSERT_outcome.
    rewrite H3, andb_false_r. run.
    rewrite normalize_triples_fails; [done|done| |by apply all_below_false].
    apply are_uint32_Forall in Hu.
    eapply Forall_impl; [exact Hu|]. intros k Hk. cbn in Hk. lia.
Qed.

(** X13.  Where [ASSERT] is compiled out, [NormalizeTriangleOrientation]
    orients the complete triangles and leaves the one or two indices after
    the last complete triangle where they are. *)
Theorem Normalize_unchecked_tail (m : Mesh.t) :
  assert_enabled = false ->
  indices_in_range m = true ->
  exists m',
    Mesh.NormalizeTriangleOrientation m = Ok m' /\
    length (Mesh.idx m') = length (Mesh.idx m) /\
    triangles (Mesh.idx m')
    = map (oriented (position_at (Mesh.verts m))) (triangles (Mesh.idx m)) /\
    drop (3 * (length (Mesh.idx m) / 3)) (Mesh.idx m')
    = drop (3 * (length (Mesh.idx m) / 3)) (Mesh.idx m).
Proof.
  intros Hoff Hr. eexists. split.
  - apply NormalizeTriangleOrientation_value; [done|by rewrite Hoff].
  - cbn [Mesh.idx Mesh.set_idx]. split; [apply orient_all_length|].
    split; [apply orient_all_triangles|].
    rewrite <- triangles_length. apply orient_all_tail.
Qed.

End MeshExtras2.

(** ** The packed mesh *)

Section PackedExtras.
Context `{K : Packing}.
Import OptimizedMesh.

(** The vertices [ToMesh] returns. *)
Lemma ToMesh_verts (om : t) :
  Mesh.verts (ToMesh om)
  = map (fun i => unpack_one om i Vertex.Default)
        (seq 0 (PackedVertList_size (verts om))).
Proof.
  unfold ToMesh. cbn [Mesh.verts].
  exact (unpack_loop (unpack_one om) Vertex.Default _ []).
Qed.

Lemma ToMesh_idx (om : t) : Mesh.idx (ToMesh om) = indices (idx_ om).
Proof. unfold ToMesh. cbn. by destruct (idx_ om). Qed.

Lemma constructed_indices (type : ShaderType) (mesh : Mesh.t) (envelope : Rect) :
  indices_in_range mesh = true ->
  indices (idx_ (constructed type mesh envelope))
  = orient_all (packed_position (verts (constructed type mesh envelope)))
               (Mesh.idx mesh).
Proof.
  intros Hr. unfold constructed. cbn [idx_ verts]. unfold kMax16.
  destruct (Z.ltb_spec (Z.of_nat (length (Mesh.verts mesh))) 65535)
    as [Hlt|Hge]; cbn [indices]; [|done].
  f_equal. apply map_id_on. apply all_below_Forall in Hr.
  eapply Forall_impl; [exact Hr|].
  intros k Hk. cbn in Hk. apply to_uint16_small. lia.
Qed.

(** X15.  On a raw mesh that meets the contract the constructor either
    returns the packed mesh or fails on an [ASSERT]; the latter exactly in a
    checked build with a shader type outside the four of [VertexFormat] or
    an envelope that does not contain the mesh. *)
Theorem New_outcome (type : ShaderType) (mesh : Mesh.t) (envelope : Rect) :
  construction_precondition mesh = true ->
  (asserts_hold type mesh envelope = true ->
   New type mesh envelope = Ok (constructed type mesh envelope))
  /\ (asserts_hold type mesh envelope = false ->
      New type mesh envelope = Fatal AssertFailed).
Proof.
  intros Hpre. split; [by apply New_ok|].
  intros Hass. pose proof (precondition_parts _ Hpre) as (Hv & Hi & H3).
  unfold asserts_hold in Hass.
  apply orb_false_iff in Hass as [Hon Hass].
  apply negb_false_iff in Hon.
  unfold New, Populate.
  destruct (Mesh.verts mesh) as [|v0 vs] eqn:Everts; [done|].
  destruct (Mesh.idx mesh) as [|i0 ix] eqn:Eidx; [done|].
  cbn [vec_at lookup list_lookup]. run.
  cbn [empty negb andb]. rewrite H3. cbn [Nat.eqb EXPECT]. run.
  rewrite ASSERT_outcome, Hon.
  destruct (Rect_Contains _ _); cbn [negb andb]; [|done]. run.
  rewrite andb_true_r in Hass. apply negb_false_iff in Hass.
  destruct type; try done.
  unfold VertexFormat. rewrite ASSERT_outcome, Hon. done.
Qed.

(** X16.  For a source with indices in range, [Index16] on the constructed
    mesh returns the source's indices, triangle by triangle, oriented by the
    packed positions, when the source has fewer than 65535 vertices, and
    fails with [RUNTIME_ERROR] when it has 65535 or more. *)
Theorem New_then_Index16 (type : ShaderType) (mesh : Mesh.t) (envelope : Rect) :
  construction_precondition mesh = true ->
  asserts_hold type mesh envelope = true ->
  indices_in_range mesh = true ->
  (Z.of_nat (length (Mesh.verts mesh)) < 65535 ->
   exists l,
     New type mesh envelope ≫= Index16 = Ok l /\
     l ≡ₚ Mesh.idx mesh /\
     triangles l
     = map (oriented
              (packed_position
                 (PackVerts (Mesh.verts mesh)
                    (CalcTransformForFormat envelope (format_of type))
                    (format_of type))))
           (triangles (Mesh.idx mesh)))
  /\ (65535 <= Z.of_nat (length (Mesh.verts mesh)) ->
      New type mesh envelope ≫= Index16 = Fatal RuntimeError).
Proof.
  intros Hpre Hass Hr. rewrite New_ok by done. run.
  pose proof (constructed_indices type mesh envelope Hr) as Hidx.
  unfold Index16. unfold constructed in *. cbn [idx_ verts] in *.
  unfold kMax16 in *.
  split; intros Hcount.
  - destruct (Z.ltb_spec (Z.of_nat (length (Mesh.verts mesh))) 65535);
      [|lia].
    cbn [indices] in Hidx. eexists. split; [reflexivity|].
    rewrite Hidx. split; [apply orient_all_Permutation|].
    apply orient_all_triangles.
  - by destruct (Z.ltb_spec (Z.of_nat (length (Mesh.verts mesh))) 65535);
      [lia|].
Qed.

(** X17.  After [ClearCpuMemoryVerts] every packed mesh, one with 32-bit
    indices too, answers [Index16] with the empty buffer, has index size
    zero, throws on every [IndexAt], passes [Validate] and unpacks to a
    mesh without vertices and indices. *)
Theorem ClearCpuMemoryVerts_then (om : t) :
  Clear_empties ->
  let om' := ClearCpuMemoryVerts om in
  Index16 om' = Ok [] /\
  IndexSize om' = 0%nat /\
  (forall n, IndexAt om' n = Fatal OutOfRange) /\
  Validate om' = Ok tt /\
  Mesh.verts (ToMesh om') = [] /\
  Mesh.idx (ToMesh om') = [] /\
  idx_ (ClearCpuMemoryVerts om') = idx_ om'.
Proof.
  intros Hclear. cbn zeta. repeat split.
  rewrite ToMesh_verts. cbn [verts ClearCpuMemoryVerts].
  by rewrite Hclear.
Qed.

(** X18.  Packing and unpacking: when [PackVerts] packs every vertex, [ToMesh]
    of the constructed mesh has the vertex count and the index count of
    the source, a permutation of its indices (so they stay in range), the
    same number of triangles, its texture, and the transform of C6. *)
Theorem New_then_ToMesh (type : ShaderType) (mesh : Mesh.t) (envelope : Rect) :
  PackVerts_keeps_count ->
  construction_precondition mesh = true ->
  asserts_hold type mesh envelope = true ->
  indices_in_range mesh = true ->
  exists om,
    New type mesh envelope = Ok om /\
    let m' := ToMesh om in
    length (Mesh.verts m') = length (Mesh.verts mesh) /\
    length (Mesh.idx m') = length (Mesh.idx mesh) /\
    Mesh.idx m' ≡ₚ Mesh.idx mesh /\
    length (triangles (Mesh.idx m')) = length (triangles (Mesh.idx mesh)) /\
    indices_in_range m' = true /\
    Mesh.texture m' = Mesh.texture mesh /\
    Mesh.object_matrix m'
    = mat4_mul (Mesh.object_matrix mesh)
        (mat4_inverse (CalcTransformForFormat envelope (format_of type))).
Proof.
  intros Hpack Hpre Hass Hr.
  exists (constructed type mesh envelope). split; [by apply New_ok|].
  cbn zeta.
  assert (length (Mesh.verts (ToMesh (constructed type mesh envelope)))
          = length (Mesh.verts mesh)) as Hverts.
  { rewrite ToMesh_verts, length_map, length_seq.
    unfold constructed. cbn [verts]. apply Hpack. }
  rewrite ToMesh_idx, constructed_indices by done.
  split; [exact Hverts|].
  split; [apply orient_all_length|].
  split; [apply orient_all_Permutation|].
  split; [by rewrite orient_all_triangles, length_map|].
  split; [|split].
  - unfold indices_in_range. rewrite Hverts, ToMesh_idx.
    rewrite constructed_indices by done.
    apply all_below_Forall, orient_all_Forall. by apply all_below_Forall.
  - unfold ToMesh, constructed. cbn. by destruct (Mesh.texture mesh).
  - done.
Qed.

(** X19.  A mesh packed for [SingleColorShader] unpacks to vertices that all
    have one colour: that of the first vertex of the source, through the
    modifiers the constructor sets. *)
Theorem SingleColorShader_flattens (mesh : Mesh.t) (envelope : Rect) :
  construction_precondition mesh = true ->
  asserts_hold SingleColorShader mesh envelope = true ->
  exists om first,
    New SingleColorShader mesh envelope = Ok om /\
    Mesh.verts mesh !! 0%nat = Some first /\
    Forall (fun v => Vertex.color v = flat_color (Vertex.color first))
           (Mesh.verts (ToMesh om)).
Proof.
  intros Hpre Hass.
  pose proof (precondition_parts _ Hpre) as (Hv & _ & _).
  destruct (Mesh.verts mesh) as [|v0 vs] eqn:Everts; [done|].
  exists (constructed SingleColorShader mesh envelope), v0.
  split; [by apply New_ok|]. split; [done|].
  rewrite ToMesh_verts. apply Forall_map, Forall_forall.
  intros i _. cbn. by rewrite Everts.
Qed.

(** X20.  [IndexAt] of a packed mesh and of its [ToMesh] agree below the
    index size; from there on the packed mesh throws [std::out_of_range]
    while the raw mesh reads outside its vector. *)
Theorem IndexAt_bounds (om : t) :
  Mesh.IndexSize (ToMesh om) = IndexSize om /\
  (forall n, (IndexSize om <= n)%nat <-> IndexAt om n = Fatal OutOfRange) /\
  (forall n, (IndexSize om <= n)%nat
             <-> Mesh.IndexAt (ToMesh om) n = Fatal Undefined) /\
  (forall n, (n < IndexSize om)%nat ->
             exists k, IndexAt om n = Ok k /\
                       Mesh.IndexAt (ToMesh om) n = Ok k).
Proof.
  unfold Mesh.IndexSize, Mesh.IndexAt. rewrite ToMesh_idx.
  assert (IndexSize om = length (indices (idx_ om))) as ->
    by (unfold IndexSize; by destruct (idx_ om)).
  assert (forall n, IndexAt om n = vec_checked_at (indices (idx_ om)) n) as Hat
    by (intros n; unfold IndexAt; by destruct (idx_ om)).
  split; [done|]. split; [|split].
  - intros n. rewrite Hat. unfold vec_checked_at.
    destruct (indices (idx_ om) !! n) eqn:Hn.
    + apply lookup_lt_Some in Hn. split; [lia|done].
    + apply lookup_ge_None in Hn. done.
  - intros n. unfold vec_at.
    destruct (indices (idx_ om) !! n) eqn:Hn.
    + apply lookup_lt_Some in Hn. split; [lia|done].
    + apply lookup_ge_None in Hn. done.
  - intros n Hn. rewrite Hat. unfold vec_checked_at, vec_at.
    destruct (lookup_lt_is_Some_2 (indices (idx_ om)) n Hn) as [k ->].
    by exists k.
Qed.

(** X21.  The copy constructor of [OptimizedMesh] copies what [ToMesh],
    [Index16], [IndexSize], [IndexAt] and [Validate] see, and leaves [mbr]
    default-constructed, so the world bounds of a copy are those of the
    default rectangle. *)
Theorem Copy_drops_mbr (om : t) :
  ToMesh (Copy om) = ToMesh om /\
  Index16 (Copy om) = Index16 om /\
  IndexSize (Copy om) = IndexSize om /\
  (forall n, IndexAt (Copy om) n = IndexAt om n) /\
  Validate (Copy om) = Validate om /\
  mbr (Copy om) = Rect_default /\
  WorldBounds (Copy om) = Rect_Transform Rect_default (object_matrix om) /\
  Copy (Copy om) = Copy om.
Proof. by repeat split. Qed.

(** X22.  When exchanging the last two corners turns a negative triangle into
    a non-negative one, no triangle of a constructed mesh has negative
    signed area at its packed positions. *)
Theorem New_winding (type : ShaderType) (mesh : Mesh.t) (envelope : Rect) :
  SignedArea_antisymmetric ->
  construction_precondition mesh = true ->
  asserts_hold type mesh envelope = true ->
  exists om,
    New type mesh envelope = Ok om /\
    Forall (fun t => negative_triangle (packed_position (verts om)) t = false)
           (triangles (indices (idx_ om))).
Proof.
  intros Hanti Hpre Hass.
  exists (constructed type mesh envelope). split; [by apply New_ok|].
  unfold constructed. cbn [idx_ verts].
  destruct (_ <? _); cbn [indices]; by apply orient_all_nonnegative.
Qed.
End PackedExtras.

(** ** The outline builder and the shader metadata *)

Section BuilderExtras.
Context `{G : Geometry}.
Context {Host MidPoint TipModel : Type}.
Import FatLine.

Abbreviation builder_t := (FatLine.t (Host := Host) (MidPoint := MidPoint)
                                 (TipModel := TipModel)).
Abbreviation logging_t := (FatLine.t (Host := Host * list Call)
                                 (MidPoint := MidPoint) (TipModel := TipModel)).

(** One call of [AppendVertex], field by field. *)
Lemma AppendVertex_frame {H : Type}
    (self : FatLine.t (Host := H) (MidPoint := MidPoint) (TipModel := TipModel))
    (to : Line) (p : vec2) (bounding_rect : option Rect) (host : H) :
  let '(self', _, _) := AppendVertex self to p bounding_rect host in
  on_add_vert_ self' = on_add_vert_ self /\
  tip_size_ self' = tip_size_ self /\
  last_extrude_time_ self' = last_extrude_time_ self /\
  stylus_state_ self' = stylus_state_ self /\
  last_center_ self' = last_center_ self /\
  pts_ self' = pts_ self /\
  length (line self' to) = S (length (line self to)) /\
  (forall other, other <> to -> line self' other = line self other).
Proof.
  unfold AppendVertex.
  destruct (match on_add_vert_ self with Some _ => _ | None => _ end)
    as [v host'].
  repeat split; try done.
  - destruct to; cbn; rewrite length_app; cbn; lia.
  - intros other Hother. by destruct to, other.
Qed.

(** X24.  A run of [AppendVertex] calls on one sequence calls a logging
    callback once per point, in order, each time with the centre, radius,
    time and pressure the builder had at the start; the sequence grows by
    the number of points, the other three sequences and the callback stay. *)
Theorem AppendVertices_calls_once_each
    (self : logging_t) (f : VertAddFn (Host := Host))
    (to : Line) (ps : list vec2) (bounding_rect : option Rect)
    (host : Host) (log : list Call) :
  on_add_vert_ self = Some (recorded f) ->
  let '(self', _, (_, log')) :=
    AppendVertices self to ps bounding_rect (host, log) in
  log' = log ++ map (fun p => MkCall (last_center_ self)
                                     (radius (tip_size_ self))
                                     (last_extrude_time_ self)
                                     (pressure (stylus_state_ self))
                                     (Vertex.At p)) ps /\
  length (line self' to) = (length (line self to) + length ps)%nat /\
  (forall other, other <> to -> line self' other = line self other) /\
  on_add_vert_ self' = on_add_vert_ self.
Proof.
  revert self bounding_rect host log.
  induction ps as [|p ps IH]; intros self br host log Hcb.
  - cbn. rewrite app_nil_r. repeat split. lia.
  - cbn [AppendVertices map].
    pose proof (AppendVertex_frame self to p br (host, log)) as Hframe.
    assert (snd (AppendVertex self to p br (host, log)).2
            = log ++ [MkCall (last_center_ self) (radius (tip_size_ self))
                             (last_extrude_time_ self)
                             (pressure (stylus_state_ self)) (Vertex.At p)])
      as Hlog.
    { unfold AppendVertex. rewrite Hcb. unfold recorded. cbn [fst snd].
      by destruct (f _ _ _ _ _ _). }
    destruct (AppendVertex self to p br (host, log))
      as [[self1 br1] [host1 log1]].
    cbn in Hlog. subst log1.
    destruct Hframe as (Hcb1 & Hts & Htime & Hst & Hc & _ & Hlen & Hother).
    specialize (IH self1 br1 host1
                   (log ++ [MkCall (last_center_ self)
                                   (radius (tip_size_ self))
                                   (last_extrude_time_ self)
                                   (pressure (stylus_state_ self))
                                   (Vertex.At p)])).
    rewrite Hcb1 in IH. specialize (IH Hcb).
    destruct (AppendVertices self1 to ps br1 _) as [[self2 br2] [host2 log2]].
    destruct IH as (Hlog2 & Hlen2 & Hother2 & Hcb2).
    rewrite Hts, Htime, Hst, Hc in Hlog2.
    split; [by rewrite Hlog2, <- app_assoc|].
    split; [rewrite Hlen2, Hlen; cbn; lia|].
    split; [|by rewrite Hcb2].
    intros other Hne. by rewrite Hother2, Hother.
Qed.

(** X25.  When the callback leaves positions alone (or none is set), the vertex
    [AppendVertex] stores last is at [p] and the bounding rectangle is
    joined with the rectangle at [p]. *)
Theorem AppendVertex_bounds_follow_vertex
    (self : builder_t) (to : Line) (p : vec2)
    (bounding_rect : option Rect) (host : Host) :
  (forall f, on_add_vert_ self = Some f ->
             forall c r t q v h,
               Vertex.position (f c r t q v h).1 = Vertex.position v) ->
  let '(self', bounds, _) := AppendVertex self to p bounding_rect host in
  exists v,
    last (line self' to) = Some v /\
    Vertex.position v = p /\
    bounds = AssignOrJoinTo (Rect_CreateAtPoint p) bounding_rect.
Proof.
  intros Hkeeps. unfold AppendVertex.
  destruct (on_add_vert_ self) as [f|] eqn:Hcb.
  - specialize (Hkeeps f eq_refl (last_center_ self) (radius (tip_size_ self))
                  (last_extrude_time_ self) (pressure (stylus_state_ self))
                  (Vertex.At p) host).
    destruct (f _ _ _ _ _ _) as [v host']. cbn in Hkeeps.
    exists v. split; [destruct to; cbn; apply last_snoc|].
    split; [done|]. by rewrite Hkeeps.
  - exists (Vertex.At p). split; [destruct to; cbn; apply last_snoc|].
    by split.
Qed.
End BuilderExtras.

Section TipExtras.
Context `{G : Geometry}.
Context {Host MidPoint TipModel TipType : Type} `{EqDecision TipType}.
Variable type_of : TipModel -> TipType.
Variable create : TipType -> TipModel.
Import FatLine.

(** X26.  When the factory makes models of the type asked for: after
    [SetTipType(t)], [GetTipType] returns [t]; a second [SetTipType(t)]
    changes nothing; a builder whose tip already has type [t] keeps its
    model; vertex sequences and midpoints are never touched; and
    [GetTipType] fails on its [EXPECT] exactly when there is no model. *)
Theorem SetTipType_GetTipType
    (self : FatLine.t (Host := Host) (MidPoint := MidPoint)
                      (TipModel := TipModel))
    (tip_type : TipType) :
  (forall t, type_of (create t) = t) ->
  GetTipType type_of (SetTipType type_of create self tip_type) = Ok tip_type /\
  SetTipType type_of create (SetTipType type_of create self tip_type) tip_type
  = SetTipType type_of create self tip_type /\
  (GetTipType type_of self = Ok tip_type ->
   SetTipType type_of create self tip_type = self) /\
  (forall l, line (SetTipType type_of create self tip_type) l = line self l) /\
  pts_ (SetTipType type_of create self tip_type) = pts_ self /\
  (GetTipType type_of self = Fatal ExpectFailed <-> tip_model_ self = None).
Proof.
  intros Hlaw.
  assert (forall s : FatLine.t (Host := Host) (MidPoint := MidPoint)
                               (TipModel := TipModel),
            GetTipType type_of s
            = match tip_model_ s with
              | Some model => Ok (type_of model)
              | None => Fatal ExpectFailed
              end) as Hget.
  { intros s. unfold GetTipType. by destruct (tip_model_ s). }
  assert (forall s : FatLine.t (Host := Host) (MidPoint := MidPoint)
                               (TipModel := TipModel),
            GetTipType type_of (SetTipType type_of create s tip_type)
            = Ok tip_type) as Hafter.
  { intros s. rewrite Hget. unfold SetTipType.
    destruct (tip_model_ s) as [model|] eqn:Hm; cbn; [|by rewrite Hlaw].
    case_bool_decide as Hne; cbn; [by rewrite Hlaw|].
    rewrite Hm. f_equal.
    by destruct (decide (type_of model = tip_type)). }
  assert (forall s : FatLine.t (Host := Host) (MidPoint := MidPoint)
                               (TipModel := TipModel),
            GetTipType type_of s = Ok tip_type ->
            SetTipType type_of create s tip_type = s) as Hsame.
  { intros s. rewrite Hget. unfold SetTipType.
    destruct (tip_model_ s) as [model|]; [|done].
    intros [= ->]. by rewrite bool_decide_eq_false_2 by auto. }
  split; [apply Hafter|]. split; [apply Hsame, Hafter|].
  split; [apply Hsame|]. split; [|split].
  - intros l. unfold SetTipType.
    destruct (tip_model_ self) as [model|]; [case_bool_decide|]; by destruct l.
  - unfold SetTipType.
    by destruct (tip_model_ self) as [model|]; [case_bool_decide|].
  - rewrite Hget. by destruct (tip_model_ self).
Qed.
End TipExtras.

Section MetadataExtras.
Context `{P : Platform}.
Import ShaderMetadata.

(** X27.  Every value made by the constructor or a factory of
    [ShaderMetadata] has at most one of the particle, animated and eraser
    flags, is cycling only if it is a particle, and has initial time zero
    unless it is a particle or animated. *)
Theorem ShaderMetadata_flags (s : ShaderMetadata.t) :
  ShaderMetadata_made s ->
  (is_cycling_ s = true -> is_particle_ s = true) /\
  (is_particle_ s && is_animated_ s = false) /\
  (is_particle_ s && is_eraser_ s = false) /\
  (is_animated_ s && is_eraser_ s = false) /\
  (is_particle_ s || is_animated_ s = false -> init_time_ s = FrameTimeS_zero).
Proof. intros []; cbn; repeat split; try done. all: by destruct cycling. Qed.
End MetadataExtras.

(** ** [Mesh::Index16] and meshes made from vertices *)

Section MeshExtras3.
Context `{G : Geometry}.

Lemma map_to_uint16_fixed (l : list Z) :
  are_uint32 l = true ->
  map to_uint16 l = l <-> Forall (fun k => k < 2 ^ 16) l.
Proof.
  intros Hu. apply are_uint32_Forall in Hu.
  induction l as [|k l IH]; [by split|].
  apply Forall_cons in Hu as [Hk Hu]. cbn [map]. split.
  - intros [= Hhead Htail]. constructor; [|by apply IH].
    unfold to_uint16 in Hhead.
    pose proof (Z.mod_pos_bound k (2 ^ 16)). lia.
  - intros [Hhead Htail]%Forall_cons. f_equal; [|by apply IH].
    apply to_uint16_small. lia.
Qed.

(** X14.  [Mesh::Index16] returns the indices unchanged when the mesh has
    fewer than [kMax16] vertices and its indices are in range; with more
    vertices it fails where [ASSERT] is checked; where it is not, it
    returns as many values as indices, and these are the indices exactly
    when all of them fit sixteen bits. *)
Theorem Mesh_Index16_outcome (m : Mesh.t) :
  (Mesh.Has16BitIndex m = true -> indices_in_range m = true ->
   Mesh.Index16 m = Ok (Mesh.idx m))
  /\ (assert_enabled = true -> Mesh.Has16BitIndex m = false ->
      Mesh.Index16 m = Fatal AssertFailed)
  /\ (assert_enabled = false -> are_uint32 (Mesh.idx m) = true ->
      exists l, Mesh.Index16 m = Ok l /\
                length l = length (Mesh.idx m) /\
                (l = Mesh.idx m <-> Forall (fun k => k < 2 ^ 16) (Mesh.idx m))).
Proof.
  split; [|split].
  - intros H16 Hr. unfold Mesh.Index16. rewrite (ASSERT_true _ H16). run.
    f_equal. apply map_id_on.
    unfold Mesh.Has16BitIndex, kMax16 in H16. apply Z.ltb_lt in H16.
    apply all_below_Forall in Hr.
    eapply Forall_impl; [exact Hr|].
    intros k Hk. cbn in Hk. apply to_uint16_small. lia.
  - intros Hon H16. unfold Mesh.Index16.
    by rewrite ASSERT_outcome, Hon, H16.
  - intros Hoff Hu. unfold Mesh.Index16. rewrite ASSERT_outcome, Hoff. run.
    eexists. split; [reflexivity|]. split; [apply length_map|].
    by apply map_to_uint16_fixed.
Qed.
End MeshExtras3.

Section PackedExtras2.
Context `{K : Packing}.
Import OptimizedMesh.

(** X23.  A mesh made from vertices alone is never accepted by the
    constructor of [OptimizedMesh]; after [GenIndex], and with a positive
    multiple of three vertices, it is, and the packed mesh has one index
    per vertex, a permutation of [0 .. n-1]. *)
Theorem FromVerts_needs_GenIndex
    (type : ShaderType) (vs : list Vertex.t) (envelope : Rect) :
  (exists e, New type (Mesh.FromVerts vs) envelope = Fatal e /\
             (vs <> [] -> e = ExpectFailed))
  /\ (vs <> [] -> (length vs mod 3 = 0)%nat ->
      asserts_hold type (Mesh.FromVerts vs) envelope = true ->
      exists om,
        New type (Mesh.GenIndex (Mesh.FromVerts vs)) envelope = Ok om /\
        IndexSize om = length vs /\
        indices (idx_ om) ≡ₚ map Z.of_nat (seq 0 (length vs))).
Proof.
  split.
  - unfold New, Populate. destruct vs as [|v vs]; cbn.
    + by exists Undefined.
    + by exists ExpectFailed.
  - intros Hne H3 Hass.
    set (mesh := Mesh.GenIndex (Mesh.FromVerts vs)).
    assert (Mesh.idx mesh = map Z.of_nat (seq 0 (length vs))) as Hidx
      by apply GenIndex_idx.
    assert (construction_precondition mesh = true) as Hpre.
    { unfold construction_precondition. rewrite Hidx.
      rewrite length_map, length_seq, H3.
      destruct vs as [|v vs]; [done|]. reflexivity. }
    exists (constructed type mesh envelope).
    split; [by apply New_ok|].
    assert (indices (idx_ (constructed type mesh envelope))
            = orient_all
                (packed_position (verts (constructed type mesh envelope)))
                (Mesh.idx mesh)) as Hix
      by (apply constructed_indices, GenIndex_in_range).
    split.
    + transitivity (length (indices (idx_ (constructed type mesh envelope))));
        [unfold IndexSize; by destruct (idx_ _)|].
      by rewrite Hix, orient_all_length, Hidx, length_map, length_seq.
    + rewrite Hix, <- Hidx. apply orient_all_Permutation.
Qed.
End PackedExtras2.

(** ** The further operations run on the grid *)

Section GridExtras.
Import Grid GridMore.
#[local] Existing Instance platform.
#[local] Existing Instance geometry.
#[local] Existing Instance packing.
#[local] Existing Instance tip_eq_dec.

Lemma grid_packs_all : PackVerts_keeps_count.
Proof. intros vs m fmt. cbn. apply length_map. Qed.


Lemma Append_indices_regroup_grid :
  Mesh.Append square doubled = Ok square_doubled /\
  Mesh.Append square_doubled ragged = Ok left_grouped /\
  Mesh.Append doubled ragged = Ok doubled_ragged /\
  Mesh.Append square doubled_ragged = Ok right_grouped /\
  Mesh.idx left_grouped = Mesh.idx right_grouped /\
  Mesh.idx left_grouped = [0; 1; 2; 0; 3; 2; 4; 5; 6; 7; 8; 9; 7].
Proof.
  assert (Mesh.Append square doubled = Ok square_doubled) as H1 by reflexivity.
  assert (Mesh.Append square_doubled ragged = Ok left_grouped) as H2
    by reflexivity.
  assert (Mesh.Append doubled ragged = Ok doubled_ragged) as H3 by reflexivity.
  assert (Mesh.Append square doubled_ragged = Ok right_grouped) as H4
    by reflexivity.
  split; [exact H1|]. split; [exact H2|]. split; [exact H3|].
  split; [exact H4|]. split; [|reflexivity].
  exact (proj1 (Append_indices_regroup _ _ _ _ _ _ _ H1 H2 H3 H4)).
Defined.

Lemma Append_nothing_grid :
  Mesh.verts Mesh.Default = [] /\ Mesh.idx Mesh.Default = [] /\
  Mesh.Append square Mesh.Default = Ok square.
Proof.
  split; [reflexivity|]. split; [reflexivity|].
  exact (Append_nothing square Mesh.Default eq_refl eq_refl).
Defined.

Lemma Clear_then_Append_grid :
  are_uint32 (Mesh.idx doubled) = true /\
  Mesh.Append (Mesh.Clear square) doubled
  = Ok (Mesh.Make (map (moved_into square doubled) (Mesh.verts doubled))
                  [0; 1; 2] (Some 7) identity ShaderMetadata.Default).
Proof.
  split; [reflexivity|].
  exact (Clear_then_Append square doubled eq_refl).
Defined.

Lemma Append_fails_only_by_ASSERT_grid :
  Mesh.append_arity square loose = false /\
  Mesh.Append square loose = Fatal AssertFailed.
Proof.
  split; [reflexivity|].
  apply (proj1 (Append_fails_only_by_ASSERT square loose)).
  split; reflexivity.
Defined.

Lemma Deindex_bounds_grid :
  (exists m', Mesh.Deindex square = Ok m') /\
  Mesh.Deindex dangling = Fatal Undefined.
Proof.
  split.
  - apply (proj1 (Deindex_bounds square ltac:(intros [=]) eq_refl)).
    reflexivity.
  - apply (proj2 (Deindex_bounds dangling ltac:(intros [=]) eq_refl)).
    reflexivity.
Defined.

Lemma Deindex_settles_grid :
  exists m', Mesh.Deindex square = Ok m' /\ Mesh.Deindex m' = Ok m'.
Proof.
  exists (unwrap (Mesh.Deindex square)).
  assert (Mesh.Deindex square = Ok (unwrap (Mesh.Deindex square))) as H
    by reflexivity.
  split; [exact H|].
  exact (proj1 (proj2 (Deindex_settles _ _ H))).
Defined.

Lemma Normalize_keeps_invariant_grid :
  (length (Mesh.idx square) mod 3 = 0)%nat /\
  indices_in_range square = true /\
  exists m', Mesh.NormalizeTriangleOrientation square = Ok m' /\
             Mesh.idx m' ≡ₚ Mesh.idx square /\
             indices_in_range m' = true.
Proof.
  assert ((length (Mesh.idx square) mod 3 = 0)%nat) as H1 by reflexivity.
  assert (indices_in_range square = true) as H2 by reflexivity.
  destruct (Normalize_keeps_invariant square H1 H2)
    as (m' & Hrun & Hperm & Hrange & _).
  split; [exact H1|]. split; [exact H2|].
  exists m'. split; [exact Hrun|]. split; [exact Hperm|exact Hrange].
Defined.

Lemma Normalize_oriented_unchanged_grid :
  (length (Mesh.idx doubled) mod 3 = 0)%nat /\
  indices_in_range doubled = true /\
  Mesh.NormalizeTriangleOrientation doubled = Ok doubled.
Proof.
  split; [reflexivity|]. split; [reflexivity|].
  apply (Normalize_oriented_unchanged doubled eq_refl eq_refl).
  repeat constructor.
Defined.

Lemma Normalize_failures_grid :
  Mesh.NormalizeTriangleOrientation ragged = Fatal AssertFailed /\
  Mesh.NormalizeTriangleOrientation dangling = Fatal Undefined.
Proof.
  split.
  - apply (proj1 (Normalize_failures ragged)); [reflexivity|].
    cbn. intros [=].
  - apply (proj2 (Normalize_failures dangling)); reflexivity.
Defined.

Lemma New_outcome_grid :
  construction_precondition square = true /\
  asserts_hold ColoredVertShader square square_envelope = true /\
  asserts_hold ColoredVertShader square speck = false /\
  OptimizedMesh.New ColoredVertShader square square_envelope = Ok packed_square /\
  OptimizedMesh.New ColoredVertShader square speck = Fatal AssertFailed.
Proof.
  assert (construction_precondition square = true) as H1 by reflexivity.
  split; [exact H1|]. split; [reflexivity|]. split; [reflexivity|]. split.
  - exact (proj1 (New_outcome ColoredVertShader square square_envelope H1)
             eq_refl).
  - exact (proj2 (New_outcome ColoredVertShader square speck H1) eq_refl).
Defined.

Lemma New_then_Index16_grid :
  (exists l,
     OptimizedMesh.New ColoredVertShader square square_envelope
       ≫= OptimizedMesh.Index16 = Ok l /\
     l ≡ₚ Mesh.idx square)
  /\ OptimizedMesh.New ColoredVertShader crowd crowd_envelope
       ≫= OptimizedMesh.Index16 = Fatal RuntimeError.
Proof.
  split.
  - destruct (proj1 (New_then_Index16 ColoredVertShader square square_envelope
                       eq_refl eq_refl eq_refl))
      as (l & Hrun & Hperm & _); [reflexivity|].
    exists l. split; [exact Hrun|exact Hperm].
  - assert (construction_precondition crowd = true) as H1
      by (vm_compute; reflexivity).
    assert (asserts_hold ColoredVertShader crowd crowd_envelope = true) as H2
      by (vm_compute; reflexivity).
    assert (indices_in_range crowd = true) as H3 by (vm_compute; reflexivity).
    apply (proj2 (New_then_Index16 ColoredVertShader crowd crowd_envelope
                    H1 H2 H3)).
    vm_compute. intros [=].
Defined.

Lemma ClearCpuMemoryVerts_then_grid :
  Clear_empties /\
  OptimizedMesh.Index16 packed_square = Ok [0; 1; 2; 0; 2; 3] /\
  OptimizedMesh.Index16 (OptimizedMesh.ClearCpuMemoryVerts packed_square)
  = Ok [] /\
  Mesh.verts (OptimizedMesh.ToMesh
                (OptimizedMesh.ClearCpuMemoryVerts packed_square)) = [].
Proof.
  pose proof (ClearCpuMemoryVerts_then packed_square grid_clear_empties)
    as (H16 & _ & _ & _ & Hverts & _).
  split; [exact grid_clear_empties|]. split; [reflexivity|].
  split; [exact H16|exact Hverts].
Defined.

Lemma New_then_ToMesh_grid :
  PackVerts_keeps_count /\
  exists om,
    OptimizedMesh.New ColoredVertShader square square_envelope = Ok om /\
    length (Mesh.verts (OptimizedMesh.ToMesh om)) = 4%nat /\
    indices_in_range (OptimizedMesh.ToMesh om) = true.
Proof.
  destruct (New_then_ToMesh ColoredVertShader square square_envelope
              grid_packs_all eq_refl eq_refl eq_refl)
    as (om & Hnew & Hverts & _ & _ & _ & Hrange & _).
  split; [exact grid_packs_all|].
  exists om. split; [exact Hnew|]. split; [exact Hverts|exact Hrange].
Defined.

Lemma SingleColorShader_flattens_grid :
  construction_precondition square = true /\
  asserts_hold SingleColorShader square square_envelope = true /\
  exists om,
    OptimizedMesh.New SingleColorShader square square_envelope = Ok om /\
    Forall (fun v => Vertex.color v = red)
           (Mesh.verts (OptimizedMesh.ToMesh om)).
Proof.
  destruct (SingleColorShader_flattens square square_envelope eq_refl eq_refl)
    as (om & first & Hnew & Hfirst & Hflat).
  split; [reflexivity|]. split; [reflexivity|].
  exists om. split; [exact Hnew|].
  injection Hfirst as <-. exact Hflat.
Defined.

Lemma IndexAt_bounds_grid :
  (2 < OptimizedMesh.IndexSize packed_square)%nat /\
  exists k, OptimizedMesh.IndexAt packed_square 2 = Ok k /\
            Mesh.IndexAt (OptimizedMesh.ToMesh packed_square) 2 = Ok k.
Proof.
  assert (2 < OptimizedMesh.IndexSize packed_square)%nat as H
    by (vm_compute; lia).
  split; [exact H|].
  exact (proj2 (proj2 (proj2 (IndexAt_bounds packed_square))) 2%nat H).
Defined.

Lemma New_winding_grid :
  SignedArea_antisymmetric /\
  exists om,
    OptimizedMesh.New ColoredVertShader square square_envelope = Ok om /\
    Forall (fun t => negative_triangle
                       (packed_position (OptimizedMesh.verts om)) t = false)
           (triangles (OptimizedMesh.indices (OptimizedMesh.idx_ om))).
Proof.
  split; [exact grid_antisymmetric|].
  exact (New_winding ColoredVertShader square square_envelope
           grid_antisymmetric eq_refl eq_refl).
Defined.

Lemma FromVerts_needs_GenIndex_grid :
  Mesh.verts loose <> [] /\
  (length (Mesh.verts loose) mod 3 = 0)%nat /\
  (exists e, OptimizedMesh.New ColoredVertShader
               (Mesh.FromVerts (Mesh.verts loose)) loose_envelope
             = Fatal e) /\
  exists om,
    OptimizedMesh.New ColoredVertShader
      (Mesh.GenIndex (Mesh.FromVerts (Mesh.verts loose))) loose_envelope
    = Ok om /\
    OptimizedMesh.IndexSize om = 3%nat.
Proof.
  assert (Mesh.verts loose <> []) as H1 by (intros [=]).
  destruct (FromVerts_needs_GenIndex (K := packing) ColoredVertShader
              (Mesh.verts loose) loose_envelope)
    as ((e & Hfail & _) & Hok).
  destruct (Hok H1 eq_refl eq_refl) as (om & Hnew & Hsize & _).
  split; [exact H1|]. split; [reflexivity|].
  split; [exists e; exact Hfail|].
  exists om. split; [exact Hnew|exact Hsize].
Defined.

Lemma AppendVertices_calls_once_each_grid :
  let self := builder (Some (recorded paint_and_count)) in
  FatLine.on_add_vert_ self = Some (recorded paint_and_count) /\
  let '(self', _, (calls, log)) :=
    FatLine.AppendVertices self FatLine.Back stroke None (0%nat, []) in
  log = map (fun p => MkCall (Vec2 4 4) 30 12 9 (Vertex.At p)) stroke /\
  length (FatLine.BackwardLine self') = 3%nat /\
  (forall other, other <> FatLine.Back ->
                 FatLine.line self' other = FatLine.line self other) /\
  FatLine.on_add_vert_ self' = FatLine.on_add_vert_ self.
Proof.
  split; [reflexivity|].
  exact (AppendVertices_calls_once_each
           (builder (Some (recorded paint_and_count))) paint_and_count
           FatLine.Back stroke None 0%nat [] eq_refl).
Defined.

Lemma AppendVertex_bounds_follow_vertex_grid :
  let '(self', bounds, _) :=
    FatLine.AppendVertex (builder (Some (recorded paint_and_count)))
                         FatLine.Fwd (Vec2 7 7) (Some (MkRect 0 0 1 1))
                         (0%nat, []) in
  exists v,
    last (FatLine.line self' FatLine.Fwd) = Some v /\
    Vertex.position v = Vec2 7 7 /\
    bounds = Some (MkRect 0 0 7 7).
Proof.
  assert (forall f,
            FatLine.on_add_vert_ (builder (Some (recorded paint_and_count)))
            = Some f ->
            forall c r t q v h,
              Vertex.position (f c r t q v h).1 = Vertex.position v) as Hkeeps
    by (intros f [= <-] c r t q v h; reflexivity).
  exact (AppendVertex_bounds_follow_vertex
           (builder (Some (recorded paint_and_count))) FatLine.Fwd
           (@Vec2 platform 7 7) (Some (MkRect 0 0 1 1)) (0%nat, []) Hkeeps).
Defined.

Lemma SetTipType_GetTipType_grid :
  (forall t : tip, id (id t) = t) /\
  FatLine.GetTipType id (FatLine.SetTipType id id (tipped None) Square)
  = Ok Square /\
  FatLine.GetTipType id (tipped None) = Fatal ExpectFailed /\
  FatLine.SetTipType id id (tipped (Some Round)) Round = tipped (Some Round).
Proof.
  assert (forall t : tip, id (id t) = t) as Hlaw by reflexivity.
  split; [exact Hlaw|].
  split; [exact (proj1 (SetTipType_GetTipType id id (tipped None) Square Hlaw))|].
  split; [reflexivity|].
  apply (SetTipType_GetTipType id id (tipped (Some Round)) Round Hlaw).
  reflexivity.
Defined.

Lemma ShaderMetadata_flags_grid :
  ShaderMetadata_made (ShaderMetadata.Particle 3 true) /\
  ShaderMetadata.is_particle_ (ShaderMetadata.Particle 3 true)
  && ShaderMetadata.is_animated_ (ShaderMetadata.Particle 3 true) = false.
Proof.
  split; [constructor|].
  apply (ShaderMetadata_flags (P := platform)
           (ShaderMetadata.Particle (3 : @FrameTimeS platform) true)).
  constructor.
Defined.
End GridExtras.

Section UncheckedExtras.
Import Unchecked.
#[local] Existing Instance platform.
#[local] Existing Instance geometry.

Lemma Normalize_unchecked_tail_pennant :
  assert_enabled = false /\
  indices_in_range pennant = true /\
  exists m',
    Mesh.NormalizeTriangleOrientation pennant = Ok m' /\
    triangles (Mesh.idx m') = [(0, 1, 2)] /\
    drop 3 (Mesh.idx m') = [3].
Proof.
  destruct (Normalize_unchecked_tail pennant eq_refl eq_refl)
    as (m' & Hrun & _ & Htri & Htail).
  split; [reflexivity|]. split; [reflexivity|].
  exists m'. split; [exact Hrun|]. split; [exact Htri|exact Htail].
Defined.

Lemma Mesh_Index16_outcome_runs :
  Mesh.Index16 Grid.square = Ok (Mesh.idx Grid.square) /\
  Mesh.Has16BitIndex Grid.crowd = false /\
  Mesh.Index16 Grid.crowd = Fatal AssertFailed /\
  are_uint32 (Mesh.idx wide) = true /\
  exists l, Mesh.Index16 wide = Ok l /\ l <> Mesh.idx wide.
Proof.
  assert (Mesh.Has16BitIndex Grid.crowd = false) as H
    by (vm_compute; reflexivity).
  split; [exact (proj1 (Mesh_Index16_outcome Grid.square) eq_refl eq_refl)|].
  split; [exact H|].
  split; [exact (proj1 (proj2 (Mesh_Index16_outcome Grid.crowd)) eq_refl H)|].
  split; [reflexivity|].
  destruct (proj2 (proj2 (Mesh_Index16_outcome wide)) eq_refl eq_refl)
    as (l & Hrun & _ & Hsame).
  exists l. split; [exact Hrun|].
  intros Heq. apply Hsame in Heq.
  apply Forall_cons in Heq as [_ Heq].
  apply Forall_cons in Heq as [_ Heq].
  apply Forall_cons in Heq as [Hbad _]. vm_compute in Hbad. discriminate Hbad.
Defined.
End UncheckedExtras.
